(** * Task Management API (server.js): a shallow embedding and its properties

    The program is a set of Express route handlers over one Mongoose model,
    [Task].  Each handler issues one call on the model and maps its outcome
    to an HTTP response.  The handlers are transcribed from [server.js].

    The model's methods ([find], [findById], [save], [findByIdAndUpdate],
    [findByIdAndDelete], [deleteMany]) are library code; they are given an
    executable semantics over an in-memory collection, following the schema
    the source declares and the library's defaults:
    - schemas are strict: members under no schema path are not read;
    - every schema has the paths [_id] and [__v], and the [timestamps]
      option adds [createdAt] and [updatedAt];
    - [save] casts, applies defaults, validates (required, enum), stamps
      the document and inserts it; the driver gives a document without an
      identifier one of its own;
    - [findByIdAndUpdate] turns a body without update operators into a
      [$set] document, drops [createdAt], sets [updatedAt], and runs no
      validator; a body with update operators is applied as such;
    - the server keeps [_id] unique and refuses to change it.
    What the program does not decide itself (the clock, generated
    identifiers, failures of the connection) is an input of each request;
    conversions of the JavaScript runtime, and what the mapper and the
    server do outside the part given here in full, are parameters. *)

From stdpp Require Import gmap strings list sorting pretty.
From Stdlib Require Import Ascii.

Local Open Scope Z_scope.

(** ** Values *)

(** A parsed JSON value.  A number is carried as the text JavaScript prints
    it as ([String(n)]: "5", "0.5", "1e+21"); an object as the list of its
    members. *)
Unset Elimination Schemes.
Inductive jval :=
  | JNull
  | JBool (b : bool)
  | JNum (n : string)
  | JStr (s : string)
  | JArr (l : list jval)
  | JObj (m : list (string * jval)).
Set Elimination Schemes.

(** Values held by a stored document. *)
Inductive bval :=
  | VNull
  | VStr (s : string)
  | VNum (n : string)
  | VDate (t : Z)
  | VOid (h : string)
  | VJson (v : jval).

#[global] Instance jval_eq_dec : EqDecision jval.
Proof.
  refine (fix go (x y : jval) {struct x} : Decision (x = y) :=
    match x, y with
    | JNull, JNull => left _
    | JBool a, JBool b => cast_if (decide (a = b))
    | JNum a, JNum b => cast_if (decide (a = b))
    | JStr a, JStr b => cast_if (decide (a = b))
    | JArr a, JArr b => cast_if (@list_eq_dec _ go a b)
    | JObj a, JObj b => cast_if (@list_eq_dec _ (@prod_eq_dec _ _ _ go) a b)
    | _, _ => right _
    end); abstract congruence.
Defined.

#[global] Instance bval_eq_dec : EqDecision bval.
Proof. solve_decision. Defined.

(** A request body ([req.body]) is a JSON object; it and a document of the
    collection are keyed by member name. *)
Abbreviation Body := (gmap string jval).
Abbreviation Doc := (gmap string bval).

(** Arrays and objects, as opposed to [null], booleans, numbers and
    strings. *)
Definition is_scalar (v : jval) : bool :=
  match v with
  | JArr _ | JObj _ => false
  | _ => true
  end.

(** ** Strings *)

Definition lower_ascii (c : ascii) : ascii :=
  let n := nat_of_ascii c in
  if ((65 <=? n)%nat && (n <=? 90)%nat)%bool then ascii_of_nat (n + 32) else c.

Fixpoint lower (s : string) : string :=
  match s with
  | EmptyString => EmptyString
  | String c r => String (lower_ascii c) (lower r)
  end.

(** Text made of ASCII characters only. *)
Fixpoint all_ascii (s : string) : bool :=
  match s with
  | EmptyString => true
  | String c r => ((nat_of_ascii c <? 128)%nat && all_ascii r)%bool
  end.

Definition is_hex_ascii (c : ascii) : bool :=
  let n := nat_of_ascii c in
  ((48 <=? n)%nat && (n <=? 57)%nat
   || (65 <=? n)%nat && (n <=? 70)%nat
   || (97 <=? n)%nat && (n <=? 102)%nat)%bool.

Fixpoint all_hex (s : string) : bool :=
  match s with
  | EmptyString => true
  | String c r => (is_hex_ascii c && all_hex r)%bool
  end.

(** The strings the ObjectId constructor accepts: 24 hexadecimal digits. *)
Definition is_hex24 (s : string) : bool :=
  ((String.length s =? 24)%nat && all_hex s)%bool.

(** [contains k s]: [k] occurs in [s] as a contiguous substring. *)
Fixpoint contains (k s : string) : bool :=
  (String.prefix k s
   || match s with
      | EmptyString => false
      | String _ r => contains k r
      end)%bool.

(** Characters with a special meaning in a regular expression. *)
Definition is_meta_ascii (c : ascii) : bool :=
  bool_decide (c ∈ ["\"; "^"; "$"; "."; "|"; "?"; "*"; "+"; "("; ")"; "["; "]"; "{"; "}"]%char).

Fixpoint no_meta (s : string) : bool :=
  match s with
  | EmptyString => true
  | String c r => (negb (is_meta_ascii c) && no_meta r)%bool
  end.

(** An update-operator key such as [$set] starts with a dollar sign. *)
Definition is_operator (k : string) : bool :=
  match k with
  | String "$"%char _ => true
  | _ => false
  end.

(** A key with a dot names a path into a member. *)
Definition is_dotted (k : string) : bool := contains "." k.

(** ** Errors *)

Inductive SchemaType := TString | TDate | TNumber | TObjectId.

Inductive ValidatorError :=
  | VCast (t : SchemaType) (v : jval)
  | VRequired
  | VEnum (v : bval).

(** What a call on the model can reject with. *)
Inductive Error :=
  | CastError (t : SchemaType) (v : jval) (path : string)
  | ValidationError (errs : list (string * ValidatorError))
  | InvalidAtomicUpdate (op : string)
  | DuplicateKey
  | ImmutableField (path : string)
  | InvalidRegex (pattern : string)
  | ServerError (text : string)
  | DriverError (msg : string).

(** The outcome of casting a value for a path: the value to store, the
    member being left out, or a cast failure. *)
Inductive Cast :=
  | CastTo (b : bval)
  | CastSkip
  | CastFail.

(** ** The runtime the program runs on

    Conversions of the JavaScript runtime, and the parts of the mapper and
    of the database server that the program relies on and that are not
    spelled out below. *)
Record Runtime := {
  (** the time value of a non-empty date string, if it denotes a date *)
  parseDate : string → option Z;
  (** the time value [new Date(n)] has for a number, if it is a date *)
  dateOfNumber : string → option Z;
  (** [Number(s)] for a non-empty string, printed, if it is a number *)
  parseNumber : string → option string;
  (** the string an array or an object is cast to when a document is
      built, if it is cast to one *)
  stringOfCompound : jval → option string;
  (** an array or an object cast for a path of another type when a
      document is built *)
  castCompound : SchemaType → jval → Cast;
  (** an array or an object cast for a path in an update *)
  castUpdateCompound : SchemaType → jval → Cast;
  (** an update document with update operators or dotted paths, cast at
      the given time: what it does to the document it is applied to *)
  operatorUpdate : Z → Body → Error + (Doc → Error + Doc);
  (** a pattern with an operator, compiled under the given options:
      searching anywhere in its subject; [None] when the server rejects
      the pattern *)
  regexOther : string → string → option (string → bool);
  (** the case folding of the server's pattern engine *)
  caseFold : string → string;
  (** on ASCII text it maps the letters A to Z to a to z *)
  caseFold_ascii : ∀ s, all_ascii s = true → caseFold s = lower s;
  (** the [message] of an error raised by the mapper or the server *)
  errorText : Error → string
}.

(** [err.message] *)
Definition message (R : Runtime) (e : Error) : string :=
  match e with
  | DriverError msg => msg
  | _ => errorText R e
  end.

(** ** Casting a body member to the type of a schema path

    [null] is kept as it is by every caster. *)

Definition cast_of (o : option bval) : Cast :=
  match o with
  | Some b => CastTo b
  | None => CastFail
  end.

(** A number is stored as the text it prints as. *)
Definition castString (R : Runtime) (v : jval) : Cast :=
  match v with
  | JNull => CastTo VNull
  | JStr s => CastTo (VStr s)
  | JNum n => CastTo (VStr n)
  | JBool b => CastTo (VStr (if b then "true" else "false"))
  | JArr _ | JObj _ => cast_of (VStr <$> stringOfCompound R v)
  end.

Definition castDate (R : Runtime) (v : jval) : Cast :=
  match v with
  | JNull => CastTo VNull
  | JStr "" => CastTo VNull
  | JStr s => cast_of (VDate <$> parseDate R s)
  | JNum n => cast_of (VDate <$> dateOfNumber R n)
  | JBool _ => CastFail
  | JArr _ | JObj _ => castCompound R TDate v
  end.

Definition castNumber (R : Runtime) (v : jval) : Cast :=
  match v with
  | JNull => CastTo VNull
  | JStr "" => CastTo VNull
  | JStr s => cast_of (VNum <$> parseNumber R s)
  | JNum n => CastTo (VNum n)
  | JBool b => CastTo (VNum (if b then "1" else "0"))
  | JArr _ | JObj _ => castCompound R TNumber v
  end.

Definition objectIdOfString (s : string) : option bval :=
  if is_hex24 s then Some (VOid (lower s)) else None.

(** A number or a boolean is converted to a string first, which is never
    one of 24 hexadecimal digits. *)
Definition castObjectId (R : Runtime) (v : jval) : Cast :=
  match v with
  | JNull => CastTo VNull
  | JStr s => cast_of (objectIdOfString s)
  | JNum _ | JBool _ => CastFail
  | JArr _ | JObj _ => castCompound R TObjectId v
  end.

(** The cast of [new Task(body)]. *)
Definition cast (R : Runtime) (t : SchemaType) (v : jval) : Cast :=
  match t with
  | TString => castString R v
  | TDate => castDate R v
  | TNumber => castNumber R v
  | TObjectId => castObjectId R v
  end.

(** The cast of a member of an update. *)
Definition castForUpdate (R : Runtime) (t : SchemaType) (v : jval) : Cast :=
  if is_scalar v then cast R t v else castUpdateCompound R t v.

(** ** The schema *)

Record SchemaPath := {
  path_type : SchemaType;
  path_required : bool;
  path_enum : option (list string);
  path_default : option bval
}.

Definition plain (t : SchemaType) : SchemaPath :=
  {| path_type := t; path_required := false; path_enum := None; path_default := None |}.

(** The paths [taskSchema] declares. *)
Definition declaredPaths : list (string * SchemaPath) :=
  [ ("title", {| path_type := TString; path_required := true;
                 path_enum := None; path_default := None |});
    ("description", plain TString);
    ("dueDate", plain TDate);
    ("status", {| path_type := TString; path_required := false;
                  path_enum := Some ["Pending"; "Completed"];
                  path_default := Some (VStr "Pending") |}) ].

(** The paths the mapper adds to every schema ([_id], the version key) and
    those of the [timestamps] option. *)
Definition implicitPaths : list (string * SchemaPath) :=
  [ ("_id", plain TObjectId);
    ("createdAt", plain TDate);
    ("updatedAt", plain TDate);
    ("__v", plain TNumber) ].

Definition taskSchema : list (string * SchemaPath) := declaredPaths ++ implicitPaths.
(** ** The collection and the environment of a request *)

Inductive Call :=
  | CallFind
  | CallFindById
  | CallSave
  | CallFindByIdAndUpdate
  | CallFindByIdAndDelete
  | CallDeleteMany.

(** The documents of the collection in their natural order, and the calls
    issued on the model so far. *)
Record Store := {
  docs : list Doc;
  calls : list Call
}.

(** How the round trip to the server can fail: the request never reaches
    the server, or the server carries it out and its reply is lost.  Either
    way the driver rejects the call with its message. *)
Inductive Fault :=
  | RequestLost (msg : string)
  | ReplyLost (msg : string).

Definition fault_message (f : Fault) : string :=
  match f with
  | RequestLost msg | ReplyLost msg => msg
  end.

(** What the surroundings decide for one request: whether the round trip to
    the server fails, the clock, the identifier the mapper generates for a
    new document, and the one the driver generates for a document that is
    sent without. *)
Record Env := {
  fault : option Fault;
  now : Z;
  freshId : string;
  driverId : string
}.

Inductive Outcome (A : Type) :=
  | Resolved (a : A)
  | Rejected (e : Error).
Arguments Resolved {A} a.
Arguments Rejected {A} e.

Definition called (c : Call) (st : Store) : Store :=
  {| docs := docs st; calls := calls st ++ [c] |}.

Definition with_docs (l : list Doc) (st : Store) : Store :=
  {| docs := l; calls := calls st |}.

(** What the caller gets of an outcome the server produced. *)
Definition reply {A} (E : Env) (o : Outcome A) : Outcome A :=
  match fault E with
  | Some f => Rejected (DriverError (fault_message f))
  | None => o
  end.

Definition has_id (oid : bval) (d : Doc) : Prop := d !! "_id" = Some oid.

#[global] Instance has_id_dec oid d : Decision (has_id oid d).
Proof. unfold has_id. apply _. Defined.

(** ** [new Task(body)] and [save] *)

(** Values a fresh document starts from: the declared default of [status]
    and a generated [_id]. *)
Definition defaults (E : Env) : Doc :=
  <["_id" := VOid (freshId E)]>
    (list_to_map (omap (λ '(k, sp), (λ v, (k, v)) <$> path_default sp) taskSchema)).

(** Strict mode: only members under a schema path are read from the body.
    A member that casts is set on the document; one that does not is
    recorded as a validation error and leaves the path as it was. *)
Definition construct_step (R : Runtime) (body : Body)
    (p : string * SchemaPath) (acc : Doc * list (string * ValidatorError))
  : Doc * list (string * ValidatorError) :=
  match body !! p.1 with
  | None => acc
  | Some v =>
      match cast R (path_type p.2) v with
      | CastTo b => (<[p.1 := b]> acc.1, acc.2)
      | CastSkip => acc
      | CastFail => (acc.1, (p.1, VCast (path_type p.2) v) :: acc.2)
      end
  end.

Definition construct (R : Runtime) (E : Env) (body : Body)
  : Doc * list (string * ValidatorError) :=
  foldr (construct_step R body) (defaults E, []) taskSchema.

(** The part of a body that strict mode reads: its members under a path
    of the schema. *)
Definition schema_members (body : Body) : Body :=
  filter (λ kv, kv.1 ∈ taskSchema.*1) body.

Definition check_required (v : option bval) : bool :=
  match v with
  | Some (VStr s) => negb (String.eqb s "")
  | Some VNull | None => false
  | Some _ => true
  end.

Definition check_enum (values : list string) (v : option bval) : bool :=
  match v with
  | None | Some VNull => true
  | Some (VStr s) => bool_decide (s ∈ values)
  | Some _ => false
  end.

Definition validate_path (d : Doc) (k : string) (sp : SchemaPath)
  : list (string * ValidatorError) :=
  (if (path_required sp && negb (check_required (d !! k)))%bool
   then [(k, VRequired)] else [])
  ++ match path_enum sp with
     | Some values =>
         if check_enum values (d !! k) then []
         else [(k, VEnum (default VNull (d !! k)))]
     | None => []
     end.

Definition validate (d : Doc) : list (string * ValidatorError) :=
  flat_map (λ '(k, sp), validate_path d k sp) taskSchema.

(** The timestamps hook of [save] on a new document, and the version key. *)
Definition stamp_new (E : Env) (d : Doc) : Doc :=
  let created :=
    match d !! "createdAt" with
    | Some (VDate t) => VDate t
    | _ => VDate (now E)
    end in
  <["__v" := VNum "0"]> (<["updatedAt" := created]> (<["createdAt" := created]> d)).

(** The document the driver sends to the server: one whose [_id] the body
    has set to [null] is given an identifier by the driver, which the
    document of the program does not learn. *)
Definition inserted (E : Env) (d : Doc) : Doc :=
  match d !! "_id" with
  | Some VNull | None => <["_id" := VOid (driverId E)]> d
  | Some _ => d
  end.

(** [const task = new Task(req.body); await task.save()] *)
Definition Task_save (R : Runtime) (E : Env) (body : Body) (st : Store)
  : Outcome Doc * Store :=
  let st := called CallSave st in
  let '(d, cast_errs) := construct R E body in
  match cast_errs ++ validate d with
  | (_ :: _) as errs => (Rejected (ValidationError errs), st)
  | [] =>
      let d := stamp_new E d in
      match fault E with
      | Some (RequestLost msg) => (Rejected (DriverError msg), st)
      | _ =>
          (* the unique index on _id *)
          if bool_decide (Exists (λ d', d' !! "_id" = inserted E d !! "_id") (docs st))
          then (reply E (Rejected DuplicateKey), st)
          else (reply E (Resolved d), with_docs (docs st ++ [inserted E d]) st)
      end
  end.

(** ** Patterns

    What the server makes of [$regex] with [$options].  A pattern made of
    literal characters, with or without the anchor [^] in front, under no
    option or the option [i], is given in full; every other pattern is left
    to the server's engine. *)

Record pattern := {
  anchored : bool;
  literal : string
}.

Definition parse_pattern (s : string) : option pattern :=
  match s with
  | String "^"%char r =>
      if no_meta r then Some {| anchored := true; literal := r |} else None
  | _ => if no_meta s then Some {| anchored := false; literal := s |} else None
  end.

(** The option [i] makes the match case-insensitive. *)
Definition pattern_search (R : Runtime) (options : string) (p : pattern)
    (subject : string) : bool :=
  let fold := if contains "i" options then caseFold R else id in
  if anchored p then String.prefix (fold (literal p)) (fold subject)
  else contains (fold (literal p)) (fold subject).

(** The compiled pattern, searching anywhere in its subject unless
    anchored; [None] when the server rejects the pattern. *)
Definition regexCompile (R : Runtime) (regex options : string)
  : option (string → bool) :=
  match parse_pattern regex with
  | Some p =>
      if bool_decide (options ∈ [""; "i"]) then Some (pattern_search R options p)
      else regexOther R regex options
  | None => regexOther R regex options
  end.



(** ** Queries *)

(** [createdAt] as the sort key of [sort({ createdAt: -1 })]; a document
    without a date there sorts as the smallest key. *)
Definition createdAt (d : Doc) : option Z :=
  match d !! "createdAt" with
  | Some (VDate t) => Some t
  | _ => None
  end.

Definition key_le (a b : option Z) : Prop :=
  match a, b with
  | None, _ => True
  | Some _, None => False
  | Some x, Some y => x ≤ y
  end.

#[global] Instance key_le_dec a b : Decision (key_le a b).
Proof. destruct a, b; simpl; apply _. Defined.

(** [d1] may come before [d2] when listing newest first. *)
Definition newer_first (d1 d2 : Doc) : Prop := key_le (createdAt d2) (createdAt d1).

#[global] Instance newer_first_dec d1 d2 : Decision (newer_first d1 d2).
Proof. unfold newer_first. apply _. Defined.

(** [Task.find().sort({ createdAt: -1 })] *)
Definition Task_find_sorted (E : Env) (st : Store) : Outcome (list Doc) * Store :=
  let st := called CallFind st in
  match fault E with
  | Some f => (Rejected (DriverError (fault_message f)), st)
  | None => (Resolved (merge_sort newer_first (docs st)), st)
  end.

Definition has_status (s : string) (d : Doc) : Prop := d !! "status" = Some (VStr s).

#[global] Instance has_status_dec s d : Decision (has_status s d).
Proof. unfold has_status. apply _. Defined.

(** [Task.find({ status })] *)
Definition Task_find_status (E : Env) (s : string) (st : Store)
  : Outcome (list Doc) * Store :=
  let st := called CallFind st in
  match fault E with
  | Some f => (Rejected (DriverError (fault_message f)), st)
  | None => (Resolved (filter (has_status s) (docs st)), st)
  end.

(** A [$regex] condition on a path holds of a document whose value there is
    a string the pattern matches. *)
Definition field_matches (m : string → bool) (k : string) (d : Doc) : bool :=
  match d !! k with
  | Some (VStr s) => m s
  | _ => false
  end.

Definition title_or_description (m : string → bool) (d : Doc) : Prop :=
  field_matches m "title" d || field_matches m "description" d.

#[global] Instance title_or_description_dec m d : Decision (title_or_description m d).
Proof. unfold title_or_description. apply _. Defined.

(** [Task.find({ $or: [{ title: { $regex: keyword, $options: 'i' } },
                       { description: { $regex: keyword, $options: 'i' } }] })] *)
Definition Task_find_regex (R : Runtime) (E : Env) (keyword : string) (st : Store)
  : Outcome (list Doc) * Store :=
  let st := called CallFind st in
  match fault E with
  | Some f => (Rejected (DriverError (fault_message f)), st)
  | None =>
      match regexCompile R keyword "i" with
      | None => (Rejected (InvalidRegex keyword), st)
      | Some m => (Resolved (filter (title_or_description m) (docs st)), st)
      end
  end.

(** [Task.findById(id)] *)
Definition Task_findById (E : Env) (id : string) (st : Store)
  : Outcome (option Doc) * Store :=
  let st := called CallFindById st in
  match objectIdOfString id with
  | None => (Rejected (CastError TObjectId (JStr id) "_id"), st)
  | Some oid =>
      match fault E with
      | Some f => (Rejected (DriverError (fault_message f)), st)
      | None => (Resolved (snd <$> list_find (has_id oid) (docs st)), st)
      end
  end.

(** ** Updates and deletes *)

Definition timestampPaths : list string := ["createdAt"; "updatedAt"].

(** What an update does to the document it is applied to: it sets
    members and removes others, or it is whatever its operators do. *)
Inductive Update :=
  | SetUnset (set : Doc) (unset : list string)
  | ByOperators (f : Doc → Error + Doc).

(** The [$set] document the plain members of a body are turned into.
    Members under no schema path are dropped (strict mode); [createdAt] is
    immutable and dropped; [updatedAt] is set to the current time; the
    others are cast.  No validator runs. *)
Definition castUpdate_step (R : Runtime) (body : Body)
    (p : string * SchemaPath) (acc : Error + Doc) : Error + Doc :=
  match acc with
  | inl e => inl e
  | inr set =>
      if bool_decide (p.1 ∈ timestampPaths) then inr set
      else match body !! p.1 with
           | None => inr set
           | Some v =>
               match castForUpdate R (path_type p.2) v with
               | CastTo b => inr (<[p.1 := b]> set)
               | CastSkip => inr set
               | CastFail => inl (CastError (path_type p.2) v p.1)
               end
           end
  end.

Definition castSet (R : Runtime) (E : Env) (body : Body) : Error + Doc :=
  foldr (castUpdate_step R body) (inr {["updatedAt" := VDate (now E)]}) taskSchema.

(** The paths an [$unset] member removes, when it is an object that names
    declared paths only, with scalar values, none of which the body also
    sets. *)
Definition unset_paths (body : Body) : option (list string) :=
  match body !! "$unset" with
  | Some (JObj m) =>
      if forallb (λ p : string * jval,
                    bool_decide (p.1 ∈ declaredPaths.*1) && is_scalar p.2
                    && bool_decide (body !! p.1 = None)) m
      then Some m.*1 else None
  | _ => None
  end.

(** The keys of a body that do not simply name a member. *)
Definition special_keys (body : Body) : list string :=
  filter (λ k, is_operator k || is_dotted k) (map_to_list body).*1.

(** The update a body stands for.  Without update operators and dotted
    paths it is the [$set] document of its members; with [$unset] as its
    only such key it also removes the paths named there; any other use of
    operators or of dotted paths is left to the mapper and the server. *)
Definition castUpdate (R : Runtime) (E : Env) (body : Body) : Error + Update :=
  match special_keys body, unset_paths body with
  | [], _ =>
      match castSet R E body with
      | inl e => inl e
      | inr set => inr (SetUnset set [])
      end
  | [_], Some paths =>
      match castSet R E body with
      | inl e => inl e
      | inr set => inr (SetUnset set paths)
      end
  | _, _ =>
      match operatorUpdate R (now E) body with
      | inl e => inl e
      | inr f => inr (ByOperators f)
      end
  end.

Definition apply_update (u : Update) (d : Doc) : Error + Doc :=
  match u with
  | SetUnset set unset => inr (foldr delete (set ∪ d) unset)
  | ByOperators f => f d
  end.

(** [Task.findByIdAndUpdate(id, update, { new: true })] *)
Definition Task_findByIdAndUpdate (R : Runtime) (E : Env) (id : string)
    (update : Body) (st : Store) : Outcome (option Doc) * Store :=
  let st := called CallFindByIdAndUpdate st in
  match objectIdOfString id with
  | None => (Rejected (CastError TObjectId (JStr id) "_id"), st)
  | Some oid =>
      match castUpdate R E update with
      | inl e => (Rejected e, st)
      | inr u =>
          match fault E with
          | Some (RequestLost msg) => (Rejected (DriverError msg), st)
          | _ =>
              match list_find (has_id oid) (docs st) with
              | None => (reply E (Resolved None), st)
              | Some (i, d) =>
                  match apply_update u d with
                  | inl e => (reply E (Rejected e), st)
                  | inr d' =>
                      (* the server refuses to change _id *)
                      if bool_decide (d' !! "_id" = d !! "_id")
                      then (reply E (Resolved (Some d')),
                            with_docs (<[i := d']> (docs st)) st)
                      else (reply E (Rejected (ImmutableField "_id")), st)
                  end
              end
          end
      end
  end.

(** [Task.findByIdAndDelete(id)] *)
Definition Task_findByIdAndDelete (E : Env) (id : string) (st : Store)
  : Outcome (option Doc) * Store :=
  let st := called CallFindByIdAndDelete st in
  match objectIdOfString id with
  | None => (Rejected (CastError TObjectId (JStr id) "_id"), st)
  | Some oid =>
      match fault E with
      | Some (RequestLost msg) => (Rejected (DriverError msg), st)
      | _ =>
          match list_find (has_id oid) (docs st) with
          | None => (reply E (Resolved None), st)
          | Some (i, d) =>
              (reply E (Resolved (Some d)), with_docs (delete i (docs st)) st)
          end
      end
  end.

(** [Task.deleteMany({ status: 'Completed' })]: resolves with [deletedCount]. *)
Definition Task_deleteMany_completed (E : Env) (st : Store) : Outcome nat * Store :=
  let st := called CallDeleteMany st in
  match fault E with
  | Some (RequestLost msg) => (Rejected (DriverError msg), st)
  | _ =>
      (reply E (Resolved (length (filter (has_status "Completed") (docs st)))),
       with_docs (filter (λ d, ¬ has_status "Completed" d) (docs st)) st)
  end.

(** ** Responses *)

Inductive Payload :=
  | PText (s : string)              (** [res.send(text)] *)
  | PMessage (m : string)           (** [res.json({ message })] *)
  | PTask (d : Doc)                 (** [res.json(task)] *)
  | PTasks (l : list Doc).          (** [res.json(tasks)] *)

Record Response := {
  code : Z;
  payload : Payload
}.

(** [res.json(x)]: the status is 200 unless set. *)
Definition json (p : Payload) : Response := {| code := 200; payload := p |}.

(** [res.status(c).json(x)] *)
Definition status_json (c : Z) (p : Payload) : Response := {| code := c; payload := p |}.

(** ** The route handlers *)

(** [GET /] *)
Definition getRoot (st : Store) : Response * Store :=
  ({| code := 200; payload := PText "âœ… Task Management API is running!" |}, st).

(** [GET /api/v1/tasks] *)
Definition getTasks (R : Runtime) (E : Env) (st : Store) : Response * Store :=
  match Task_find_sorted E st with
  | (Resolved tasks, st) => (json (PTasks tasks), st)
  | (Rejected err, st) => (status_json 500 (PMessage (message R err)), st)
  end.

(** [GET /api/v1/tasks/:id] *)
Definition getTask (R : Runtime) (E : Env) (id : string) (st : Store)
  : Response * Store :=
  match Task_findById E id st with
  | (Resolved None, st) => (status_json 404 (PMessage "Task not found"), st)
  | (Resolved (Some task), st) => (json (PTask task), st)
  | (Rejected err, st) => (status_json 500 (PMessage (message R err)), st)
  end.

(** [POST /api/v1/tasks] *)
Definition postTask (R : Runtime) (E : Env) (body : Body) (st : Store)
  : Response * Store :=
  match Task_save R E body st with
  | (Resolved task, st) => (status_json 201 (PTask task), st)
  | (Rejected err, st) => (status_json 400 (PMessage (message R err)), st)
  end.

(** [PUT /api/v1/tasks/:id] *)
Definition putTask (R : Runtime) (E : Env) (id : string) (body : Body) (st : Store)
  : Response * Store :=
  match Task_findByIdAndUpdate R E id body st with
  | (Resolved None, st) => (status_json 404 (PMessage "Task not found"), st)
  | (Resolved (Some task), st) => (json (PTask task), st)
  | (Rejected err, st) => (status_json 400 (PMessage (message R err)), st)
  end.

(** [['Pending', 'Completed'].includes(status)] for [status] read off the
    body: strict equality with one of the two strings. *)
Definition includes_status (status : option jval) : bool :=
  match status with
  | Some (JStr s) => bool_decide (s ∈ ["Pending"; "Completed"])
  | _ => false
  end.

(** The object literal [{ status }]; a member that is undefined is not
    sent to the server. *)
Definition status_only (status : option jval) : Body :=
  match status with
  | Some v => {["status" := v]}
  | None => ∅
  end.

(** [PATCH /api/v1/tasks/:id/status] *)
Definition patchStatus (R : Runtime) (E : Env) (id : string) (body : Body) (st : Store)
  : Response * Store :=
  let status := body !! "status" in
  if negb (includes_status status)
  then (status_json 400 (PMessage "Invalid status value"), st)
  else
    match Task_findByIdAndUpdate R E id (status_only status) st with
    | (Resolved None, st) => (status_json 404 (PMessage "Task not found"), st)
    | (Resolved (Some task), st) => (json (PTask task), st)
    | (Rejected err, st) => (status_json 400 (PMessage (message R err)), st)
    end.

(** [DELETE /api/v1/tasks/:id] *)
Definition deleteTask (R : Runtime) (E : Env) (id : string) (st : Store)
  : Response * Store :=
  match Task_findByIdAndDelete E id st with
  | (Resolved None, st) => (status_json 404 (PMessage "Task not found"), st)
  | (Resolved (Some _), st) => (json (PMessage "Task deleted successfully"), st)
  | (Rejected err, st) => (status_json 500 (PMessage (message R err)), st)
  end.

(** [GET /api/v1/tasks/status/:status] *)
Definition getByStatus (R : Runtime) (E : Env) (status : string) (st : Store)
  : Response * Store :=
  match Task_find_status E status st with
  | (Resolved tasks, st) => (json (PTasks tasks), st)
  | (Rejected err, st) => (status_json 500 (PMessage (message R err)), st)
  end.

(** [GET /api/v1/tasks/search/:keyword] *)
Definition searchTasks (R : Runtime) (E : Env) (keyword : string) (st : Store)
  : Response * Store :=
  match Task_find_regex R E keyword st with
  | (Resolved tasks, st) => (json (PTasks tasks), st)
  | (Rejected err, st) => (status_json 500 (PMessage (message R err)), st)
  end.

(** The text of [`Deleted ${result.deletedCount} completed tasks.`] *)
Definition deleted_message (n : nat) : string :=
  "Deleted " +:+ pretty n +:+ " completed tasks.".

(** [DELETE /api/v1/tasks] *)
Definition deleteCompleted (R : Runtime) (E : Env) (st : Store) : Response * Store :=
  match Task_deleteMany_completed E st with
  | (Resolved deletedCount, st) => (json (PMessage (deleted_message deletedCount)), st)
  | (Rejected err, st) => (status_json 500 (PMessage (message R err)), st)
  end.

(** ** Requests and their dispatch *)

Inductive Request :=
  | Root
  | ListAll
  | GetById (id : string)
  | Create (body : Body)
  | FullUpdate (id : string) (body : Body)
  | StatusUpdate (id : string) (body : Body)
  | DeleteById (id : string)
  | FilterByStatus (status : string)
  | Search (keyword : string)
  | DeleteAllCompleted.

Definition app (R : Runtime) (E : Env) (req : Request) (st : Store) : Response * Store :=
  match req with
  | Root => getRoot st
  | ListAll => getTasks R E st
  | GetById id => getTask R E id st
  | Create body => postTask R E body st
  | FullUpdate id body => putTask R E id body st
  | StatusUpdate id body => patchStatus R E id body st
  | DeleteById id => deleteTask R E id st
  | FilterByStatus s => getByStatus R E s st
  | Search k => searchTasks R E k st
  | DeleteAllCompleted => deleteCompleted R E st
  end.

(** A sequence of requests, each in its own environment. *)
Definition run (R : Runtime) (reqs : list (Env * Request)) (st : Store) : Store :=
  foldl (λ st '(E, req), snd (app R E req st)) st reqs.

(** ** The schema invariant *)

(** A document has a non-empty [title] and a [status] of the enumeration. *)
Definition valid_task (d : Doc) : bool :=
  match d !! "title", d !! "status" with
  | Some (VStr t), Some (VStr s) =>
      negb (String.eqb t "") && bool_decide (s ∈ ["Pending"; "Completed"])
  | _, _ => false
  end.

Definition store_valid (st : Store) : Prop := Forall (λ d, valid_task d = true) (docs st).

Definition emptyStore : Store := {| docs := []; calls := [] |}.

(** The requests that keep the invariant: all but the full update, and a
    create whose body does not set [status] to [null]. *)
Definition keeps_invariant (req : Request) : Prop :=
  match req with
  | FullUpdate _ _ => False
  | Create body => body !! "status" ≠ Some JNull
  | _ => True
  end.

(** ** Sample inputs *)

Definition digit (c : ascii) : option Z :=
  let n := nat_of_ascii c in
  if ((48 <=? n)%nat && (n <=? 57)%nat)%bool then Some (Z.of_nat (n - 48)) else None.

Fixpoint decimal_from (acc : Z) (s : string) : option Z :=
  match s with
  | EmptyString => Some acc
  | String c r =>
      match digit c with
      | Some d => decimal_from (10 * acc + d) r
      | None => None
      end
  end.

(** The value of a text of decimal digits. *)
Definition decimal (s : string) : option Z :=
  match s with
  | EmptyString => None
  | _ => decimal_from 0 s
  end.

(** A runtime that knows the time value of whole numbers, no date string,
    no cast of an array or object, no operator but [$unset] and no pattern
    operator but [^]. *)
Definition sampleRuntime : Runtime :=
  {| parseDate := λ _, None;
     dateOfNumber := decimal;
     parseNumber := λ _, None;
     stringOfCompound := λ _, None;
     castCompound := λ _ _, CastFail;
     castUpdateCompound := λ _ _, CastFail;
     operatorUpdate := λ _ _, inl (ServerError "Unknown modifier");
     regexOther := λ _ _, None;
     caseFold := lower;
     caseFold_ascii := λ _ _, eq_refl;
     errorText := λ e,
       match e with
       | CastError _ _ _ => "Cast failed"
       | ValidationError _ => "Task validation failed"
       | InvalidAtomicUpdate _ => "Invalid atomic update value"
       | DuplicateKey => "E11000 duplicate key error"
       | ImmutableField _ => "Performing an update on an immutable field"
       | InvalidRegex _ => "Regular expression is invalid"
       | ServerError text => text
       | DriverError m => m
       end |}.

Definition idA : string := "65f0000000000000000000a1".
Definition idB : string := "65f0000000000000000000b2".
Definition idC : string := "65f0000000000000000000c3".
Definition idD : string := "65f0000000000000000000d4".

Definition env (t : Z) (id : string) : Env :=
  {| fault := None; now := t; freshId := id; driverId := idD |}.

Definition failing (msg : string) (t : Z) (id : string) : Env :=
  {| fault := Some (RequestLost msg); now := t; freshId := id; driverId := idD |}.

Definition unanswered (msg : string) (t : Z) (id : string) : Env :=
  {| fault := Some (ReplyLost msg); now := t; freshId := id; driverId := idD |}.

Definition bodyA : Body := {["title" := JStr "Write report"]}.
Definition bodyB : Body :=
  <["status" := JStr "Completed"]> {["title" := JStr "Buy milk"]}.

(** The collection after creating task A, then task B. *)
Definition storeAB : Store :=
  run sampleRuntime [(env 1000 idA, Create bodyA); (env 2000 idB, Create bodyB)] emptyStore.

(** Task A and task B as stored. *)
Definition docA : Doc :=
  stamp_new (env 1000 idA) (construct sampleRuntime (env 1000 idA) bodyA).1.

Definition docB : Doc :=
  stamp_new (env 2000 idB) (construct sampleRuntime (env 2000 idB) bodyB).1.

(** An edit of task A: a description, and a creation time of the client's. *)
Definition bodyEdit : Body :=
  <["createdAt" := JNum "5"]> {["description" := JStr "due Friday"]}.



(** A create body with members the schema does not know. *)
Definition bodyExtra : Body :=
  <["priority" := JNum "3"]> (<["owner" := JStr "sam"]> {["title" := JStr "Call the bank"]}).

(** The document created from it at time 3000 under the generated
    identifier [idC]. *)
Definition docC : Doc :=
  stamp_new (env 3000 idC) (construct sampleRuntime (env 3000 idC) bodyExtra).1.

(** Two full updates of task A: one sets a status outside the enumeration,
    the other an empty title. *)
Definition putArchived : Response * Store :=
  app sampleRuntime (env 3000 idC) (FullUpdate idA {["status" := JStr "Archived"]}) storeAB.

Definition putUntitled : Response * Store :=
  app sampleRuntime (env 3000 idC) (FullUpdate idA {["title" := JStr ""]}) storeAB.

(** The titles of the tasks a response lists. *)
Definition titles (r : Response * Store) : list (option bval) :=
  match payload r.1 with
  | PTasks tasks => (λ d : Doc, d !! "title") <$> tasks
  | _ => []
  end.

(** ** Routes

    The routes in the order [server.js] registers them.  A request path is
    taken as the list of its segments; a literal segment of a route is
    compared without regard to case (the router's default), a parameter
    takes one non-empty segment.  A path that no route matches is left to
    the router, which the program does not configure. *)

Inductive Method := GET | POST | PUT | PATCH | DELETE.

#[global] Instance Method_eq_dec : EqDecision Method.
Proof. solve_decision. Defined.

Inductive Segment :=
  | Fixed (s : string)
  | Named (name : string).

(** [req.params] when the path matches the pattern. *)
Fixpoint match_route (pattern : list Segment) (path : list string)
  : option (gmap string string) :=
  match pattern, path with
  | [], [] => Some ∅
  | Fixed s :: pattern, x :: path =>
      if String.eqb (lower s) (lower x) then match_route pattern path else None
  | Named name :: pattern, x :: path =>
      if String.eqb x "" then None
      else <[name := x]> <$> match_route pattern path
  | _, _ => None
  end.

Record Route := {
  route_method : Method;
  route_path : list Segment;
  route_request : gmap string string → Body → option Request
}.

Definition tasksPath : list Segment := [Fixed "api"; Fixed "v1"; Fixed "tasks"].

Definition routes : list Route :=
  [ {| route_method := GET; route_path := [];
       route_request := λ _ _, Some Root |};
    {| route_method := GET; route_path := tasksPath;
       route_request := λ _ _, Some ListAll |};
    {| route_method := GET; route_path := tasksPath ++ [Named "id"];
       route_request := λ params _, GetById <$> params !! "id" |};
    {| route_method := POST; route_path := tasksPath;
       route_request := λ _ body, Some (Create body) |};
    {| route_method := PUT; route_path := tasksPath ++ [Named "id"];
       route_request := λ params body, (λ id, FullUpdate id body) <$> params !! "id" |};
    {| route_method := PATCH; route_path := tasksPath ++ [Named "id"; Fixed "status"];
       route_request := λ params body, (λ id, StatusUpdate id body) <$> params !! "id" |};
    {| route_method := DELETE; route_path := tasksPath ++ [Named "id"];
       route_request := λ params _, DeleteById <$> params !! "id" |};
    {| route_method := GET; route_path := tasksPath ++ [Fixed "status"; Named "status"];
       route_request := λ params _, FilterByStatus <$> params !! "status" |};
    {| route_method := GET; route_path := tasksPath ++ [Fixed "search"; Named "keyword"];
       route_request := λ params _, Search <$> params !! "keyword" |};
    {| route_method := DELETE; route_path := tasksPath;
       route_request := λ _ _, Some DeleteAllCompleted |} ].

Definition route_matches (m : Method) (path : list string) (r : Route) : Prop :=
  route_method r = m ∧ is_Some (match_route (route_path r) path).

#[global] Instance route_matches_dec m path r : Decision (route_matches m path r).
Proof. unfold route_matches. apply _. Defined.

(** The first route that matches decides the request. *)
Definition dispatch (m : Method) (path : list string) (body : Body) : option Request :=
  '(_, r) ← list_find (route_matches m path) routes;
  params ← match_route (route_path r) path;
  route_request r params body.

Definition serve (R : Runtime) (E : Env) (m : Method) (path : list string)
    (body : Body) (st : Store) : option (Response * Store) :=
  (λ req, app R E req st) <$> dispatch m path body.

(** ** Start-up *)

(** [process.env.PORT || 3000]: the variable when it is set and not empty. *)
Inductive PortValue :=
  | PortOfEnv (s : string)
  | PortNumber (n : Z).

Definition PORT (penv : gmap string string) : PortValue :=
  match penv !! "PORT" with
  | Some s => if String.eqb s "" then PortNumber 3000 else PortOfEnv s
  | None => PortNumber 3000
  end.

(** The port as the template literal prints it. *)
Definition portText (p : PortValue) : string :=
  match p with
  | PortOfEnv s => s
  | PortNumber n => pretty n
  end.

Inductive Effect :=
  | Connect (uri : option string)       (** [mongoose.connect(uri)] *)
  | Listen (port : PortValue)           (** [app.listen(port, ...)] *)
  | ConsoleLog (text : string)
  | ConsoleError (args : list string).

(** What [startServer] does, given how the connection attempt and the
    call of [listen] turn out: [listen] rejects when it throws, and
    resolves when the server is listening and its callback has run. *)
Definition startServer (R : Runtime) (penv : gmap string string)
    (connect : option string → Outcome ()) (listen : PortValue → Outcome ())
  : list Effect :=
  Connect (penv !! "MONGODB_URI")
  :: match connect (penv !! "MONGODB_URI") with
     | Resolved _ =>
         ConsoleLog "âœ… Connected to MongoDB Atlas"
         :: Listen (PORT penv)
         :: match listen (PORT penv) with
            | Resolved _ =>
                [ConsoleLog ("ğŸš€ Server running on http://localhost:" +:+ portText (PORT penv))]
            | Rejected err => [ConsoleError ["âŒ Failed to connect:"; message R err]]
            end
     | Rejected err => [ConsoleError ["âŒ Failed to connect:"; message R err]]
     end.

(** ** Further notions for the properties *)

(** [_id] is unique within the collection. *)
Definition ids_unique (st : Store) : Prop :=
  NoDup ((λ d : Doc, d !! "_id") <$> docs st).

(** The requests whose handlers only read. *)
Definition reads_only (req : Request) : bool :=
  match req with
  | Root | ListAll | GetById _ | FilterByStatus _ | Search _ => true
  | _ => false
  end.

(** The success statuses the handlers use. *)
Definition succeeded (r : Response) : bool :=
  bool_decide (code r = 200 ∨ code r = 201).

(** The statuses a request can be answered with. *)
Definition possible_codes (req : Request) : list Z :=
  match req with
  | Root => [200]
  | ListAll | FilterByStatus _ | Search _ | DeleteAllCompleted => [200; 500]
  | GetById _ | DeleteById _ => [200; 404; 500]
  | Create _ => [201; 400]
  | FullUpdate _ _ | StatusUpdate _ _ => [200; 400; 404]
  end.

(** An environment with the server reachable. *)
Definition reachable (E : Env) : Prop := fault E = None.

(** A process environment, and a connection attempt that needs a
    connection string. *)
Definition sampleProcessEnv : gmap string string :=
  {["MONGODB_URI" := "mongodb://db.example/tasks"]}.

Definition sampleConnect (uri : option string) : Outcome () :=
  match uri with
  | Some _ => Resolved ()
  | None => Rejected (DriverError "The uri parameter must be a string")
  end.

Definition sampleListen (p : PortValue) : Outcome () := Resolved ().

(** * Properties *)

(** ** Status update: validation before the store *)

(** C3: a status update whose body carries no [status] member, or one that
    is not the string "Pending" or "Completed", is answered with 400 and
    leaves the store as it was: no document changes and no call is issued
    on the model. *)
Theorem C3_invalid_status_rejected (R : Runtime) (E : Env) (id : string)
    (body : Body) (st : Store) :
  body !! "status" ≠ Some (JStr "Pending") →
  body !! "status" ≠ Some (JStr "Completed") →
  app R E (StatusUpdate id body) st
    = (status_json 400 (PMessage "Invalid status value"), st).
Proof.
  intros HP HC. cbn [app]. unfold patchStatus.
  assert (includes_status (body !! "status") = false) as ->; [|done].
  destruct (body !! "status") as [[| | |s| |]|]; try done.
  cbn. apply bool_decide_eq_false. intros Hs.
  repeat (apply elem_of_cons in Hs as [->|Hs]; [congruence|]).
  by apply elem_of_nil in Hs.
Qed.

Lemma C3_witness :
  app sampleRuntime (env 3000 idC) (StatusUpdate idA {["status" := JStr "Archived"]}) storeAB
    = (status_json 400 (PMessage "Invalid status value"), storeAB).
Proof. apply C3_invalid_status_rejected; vm_compute; discriminate. Defined.

(** ** Errors raised by the store *)

(** A failed round trip rejects the call of every handler that reaches the
    server, with the driver's message; a call that reads leaves the
    collection as it was. *)
Lemma fault_rejects (R : Runtime) (E : Env) (st : Store) (f : Fault) :
  fault E = Some f →
  let err := DriverError (fault_message f) in
  Task_find_sorted E st = (Rejected err, called CallFind st)
  ∧ (∀ s, Task_find_status E s st = (Rejected err, called CallFind st))
  ∧ (∀ k, Task_find_regex R E k st = (Rejected err, called CallFind st))
  ∧ (Task_deleteMany_completed E st).1 = Rejected err
  ∧ (∀ id oid, objectIdOfString id = Some oid →
       Task_findById E id st = (Rejected err, called CallFindById st)
       ∧ (Task_findByIdAndDelete E id st).1 = Rejected err).
Proof.
  intros HE err. split_and!; intros.
  - unfold Task_find_sorted. by rewrite HE.
  - unfold Task_find_status. by rewrite HE.
  - unfold Task_find_regex. by rewrite HE.
  - unfold Task_deleteMany_completed, reply. rewrite HE. by destruct f.
  - split.
    + unfold Task_findById. by rewrite H, HE.
    + unfold Task_findByIdAndDelete, reply. rewrite H, HE.
      destruct f; [done|]. by destruct (list_find _ _) as [[]|].
Qed.

(** An identifier the store cannot read rejects the call with a cast
    error, whatever the state of the connection. *)
Lemma malformed_id_rejects (R : Runtime) (E : Env) (st : Store) (id : string) :
  objectIdOfString id = None →
  Task_findById E id st
    = (Rejected (CastError TObjectId (JStr id) "_id"), called CallFindById st)
  ∧ Task_findByIdAndDelete E id st
    = (Rejected (CastError TObjectId (JStr id) "_id"), called CallFindByIdAndDelete st)
  ∧ (∀ body, Task_findByIdAndUpdate R E id body st
    = (Rejected (CastError TObjectId (JStr id) "_id"), called CallFindByIdAndUpdate st)).
Proof.
  intros Hid. split_and!; intros.
  - unfold Task_findById. by rewrite Hid.
  - unfold Task_findByIdAndDelete. by rewrite Hid.
  - unfold Task_findByIdAndUpdate. by rewrite Hid.
Qed.

(** C2 as amended: when the call a handler issues on the model is rejected,
    the body of the response is the error's message, and the status is 500
    for the reading and deleting handlers and 400 for create, full update
    and status update. *)
Theorem C2_store_error_response (R : Runtime) (E : Env) (st st' : Store) (err : Error) :
  (Task_find_sorted E st = (Rejected err, st') →
     getTasks R E st = (status_json 500 (PMessage (message R err)), st'))
  ∧ (∀ id, Task_findById E id st = (Rejected err, st') →
     getTask R E id st = (status_json 500 (PMessage (message R err)), st'))
  ∧ (∀ id, Task_findByIdAndDelete E id st = (Rejected err, st') →
     deleteTask R E id st = (status_json 500 (PMessage (message R err)), st'))
  ∧ (∀ s, Task_find_status E s st = (Rejected err, st') →
     getByStatus R E s st = (status_json 500 (PMessage (message R err)), st'))
  ∧ (∀ k, Task_find_regex R E k st = (Rejected err, st') →
     searchTasks R E k st = (status_json 500 (PMessage (message R err)), st'))
  ∧ (Task_deleteMany_completed E st = (Rejected err, st') →
     deleteCompleted R E st = (status_json 500 (PMessage (message R err)), st'))
  ∧ (∀ body, Task_save R E body st = (Rejected err, st') →
     postTask R E body st = (status_json 400 (PMessage (message R err)), st'))
  ∧ (∀ id body, Task_findByIdAndUpdate R E id body st = (Rejected err, st') →
     putTask R E id body st = (status_json 400 (PMessage (message R err)), st'))
  ∧ (∀ id body, includes_status (body !! "status") = true →
     Task_findByIdAndUpdate R E id (status_only (body !! "status")) st = (Rejected err, st') →
     patchStatus R E id body st = (status_json 400 (PMessage (message R err)), st')).
Proof.
  split_and!; intros.
  - unfold getTasks. by rewrite H.
  - unfold getTask. by rewrite H.
  - unfold deleteTask. by rewrite H.
  - unfold getByStatus. by rewrite H.
  - unfold searchTasks. by rewrite H.
  - unfold deleteCompleted. by rewrite H.
  - unfold postTask. by rewrite H.
  - unfold putTask. by rewrite H.
  - unfold patchStatus. by rewrite H, H0.
Qed.

(** A lost connection, for each handler that reaches the server. *)
Lemma C2_witness :
  let E := failing "connection lost" 3000 idC in
  getTask sampleRuntime E idA storeAB
    = (status_json 500 (PMessage "connection lost"), called CallFindById storeAB)
  ∧ putTask sampleRuntime E idA bodyA storeAB
    = (status_json 400 (PMessage "connection lost"), called CallFindByIdAndUpdate storeAB)
  ∧ patchStatus sampleRuntime E idA bodyB storeAB
    = (status_json 400 (PMessage "connection lost"), called CallFindByIdAndUpdate storeAB).
Proof.
  intros E.
  pose proof (C2_store_error_response sampleRuntime E storeAB
                (called CallFindById storeAB) (DriverError "connection lost"))
    as (_ & Hget & _).
  pose proof (C2_store_error_response sampleRuntime E storeAB
                (called CallFindByIdAndUpdate storeAB) (DriverError "connection lost"))
    as (_ & _ & _ & _ & _ & _ & _ & Hput & Hpatch).
  split_and!.
  - apply Hget. vm_compute; reflexivity.
  - apply Hput. vm_compute; reflexivity.
  - apply Hpatch; vm_compute; reflexivity.
Defined.

(** The claim as stated fails for full update and for status update: a lost
    connection, and a malformed identifier, are answered with 400. *)
Lemma C2_counterexample :
  Task_findByIdAndUpdate sampleRuntime (failing "connection lost" 3000 idC) idA bodyA storeAB
    = (Rejected (DriverError "connection lost"), called CallFindByIdAndUpdate storeAB)
  ∧ code (putTask sampleRuntime (failing "connection lost" 3000 idC) idA bodyA storeAB).1 = 400
  ∧ code (patchStatus sampleRuntime (failing "connection lost" 3000 idC) idA bodyB storeAB).1 = 400
  ∧ code (putTask sampleRuntime (env 3000 idC) "not-an-id" bodyA storeAB).1 = 400
  ∧ code (getTask sampleRuntime (env 3000 idC) "not-an-id" storeAB).1 = 500.
Proof. split_and!; vm_compute; reflexivity. Qed.

(** ** Reading the collection *)

Lemma valid_task_status (d : Doc) :
  valid_task d = true → has_status "Pending" d ∨ has_status "Completed" d.
Proof.
  unfold valid_task, has_status.
  destruct (d !! "title") as [[| t | | | |]|]; try done.
  destruct (d !! "status") as [[| s | | | |]|]; try done.
  intros [_ Hs%bool_decide_eq_true]%andb_prop.
  repeat (apply elem_of_cons in Hs as [->|Hs]; [by auto|]).
  by apply elem_of_nil in Hs.
Qed.

Lemma filter_status_outside (s : string) (l : list Doc) :
  Forall (λ d, valid_task d = true) l →
  s ∉ ["Pending"; "Completed"] →
  filter (has_status s) l = [].
Proof.
  intros Hvalid Hs. induction Hvalid as [|d l Hd _ IH]; [done|].
  rewrite filter_cons_False; [done|].
  intros Hhas. apply valid_task_status in Hd as [Hd|Hd];
    unfold has_status in *; rewrite Hd in Hhas; simplify_eq; set_solver.
Qed.

(** With the server reachable the status filter validates nothing: it
    answers 200 with exactly the documents whose [status] is the given
    string, in the order of the collection; over a collection that
    satisfies the schema invariant a string outside the enumeration yields
    the empty array. *)
Lemma getByStatus_exact (R : Runtime) (E : Env) (s : string) (st : Store) :
  fault E = None →
  getByStatus R E s st
    = (json (PTasks (filter (has_status s) (docs st))), called CallFind st)
  ∧ (store_valid st → s ∉ ["Pending"; "Completed"] →
     getByStatus R E s st = (json (PTasks []), called CallFind st)).
Proof.
  intros HE.
  assert (getByStatus R E s st
          = (json (PTasks (filter (has_status s) (docs st))), called CallFind st)) as Hget.
  { unfold getByStatus, Task_find_status. by rewrite HE. }
  split; [done|]. intros Hvalid Hs. rewrite Hget. do 3 f_equal.
  by apply filter_status_outside.
Qed.

(** C8: a string outside the enumeration does not always yield the empty
    array.  Over tasks A and B as created the filter for "Archived" answers
    200 with no task; after the full update of task A with the status
    "Archived", which is answered with 200, it answers 200 with task A. *)
Theorem C8_filter_finds_archived :
  ("Archived" ∉ ["Pending"; "Completed"])
  ∧ getByStatus sampleRuntime (env 2500 idC) "Archived" storeAB
    = (json (PTasks []), called CallFind storeAB)
  ∧ code putArchived.1 = 200
  ∧ code (getByStatus sampleRuntime (env 4000 idC) "Archived" putArchived.2).1 = 200
  ∧ titles (getByStatus sampleRuntime (env 4000 idC) "Archived" putArchived.2)
    = [Some (VStr "Write report")].
Proof.
  split_and!.
  - apply (bool_decide_unpack _). vm_compute; reflexivity.
  - vm_compute; reflexivity.
  - vm_compute; reflexivity.
  - vm_compute; reflexivity.
  - vm_compute; reflexivity.
Qed.

#[local] Instance key_le_total : Total key_le.
Proof. intros [x|] [y|]; simpl; auto. lia. Qed.

#[local] Instance key_le_trans : Transitive key_le.
Proof. intros [x|] [y|] [z|]; simpl; auto; try done. lia. Qed.

#[local] Instance newer_first_total : Total newer_first.
Proof. intros d1 d2. unfold newer_first. destruct (total key_le (createdAt d1) (createdAt d2)); auto. Qed.

#[local] Instance newer_first_trans : Transitive newer_first.
Proof. intros d1 d2 d3 H12 H23. unfold newer_first in *. by etrans. Qed.

(** C9: with the server reachable, list-all answers 200 with the whole
    collection, every document once, ordered by [createdAt] descending:
    each document of the array is at least as recent as all that follow. *)
Theorem C9_list_newest_first (R : Runtime) (E : Env) (st : Store) :
  fault E = None →
  ∃ tasks,
    getTasks R E st = (json (PTasks tasks), called CallFind st)
    ∧ tasks ≡ₚ docs st
    ∧ StronglySorted (λ d1 d2, key_le (createdAt d2) (createdAt d1)) tasks.
Proof.
  intros HE. exists (merge_sort newer_first (docs st)). split_and!.
  - unfold getTasks, Task_find_sorted. by rewrite HE.
  - apply merge_sort_Permutation.
  - apply (StronglySorted_merge_sort newer_first).
Qed.

Lemma C9_witness :
  ∃ tasks,
    getTasks sampleRuntime (env 3000 idC) storeAB
      = (json (PTasks tasks), called CallFind storeAB)
    ∧ tasks ≡ₚ docs storeAB
    ∧ StronglySorted (λ d1 d2, key_le (createdAt d2) (createdAt d1)) tasks.
Proof. apply C9_list_newest_first. reflexivity. Defined.

(** Task B was created after task A and is listed first. *)
Example list_B_then_A :
  match payload (getTasks sampleRuntime (env 3000 idC) storeAB).1 with
  | PTasks tasks => (λ d : Doc, d !! "title") <$> tasks
  | _ => []
  end = [Some (VStr "Buy milk"); Some (VStr "Write report")].
Proof. vm_compute; reflexivity. Qed.

(** ** Deleting the completed tasks *)

Lemma string_length_app (s t : string) :
  String.length (s +:+ t) = (String.length s + String.length t)%nat.
Proof. induction s as [|c s IH]; simpl; [done|]. by rewrite IH. Qed.

Lemma string_app_inj_r (t s1 s2 : string) : s1 +:+ t = s2 +:+ t → s1 = s2.
Proof.
  revert s2. induction s1 as [|c s1 IH]; intros [|c' s2] H.
  - done.
  - apply (f_equal String.length) in H.
    rewrite !string_length_app in H. simpl in H. lia.
  - apply (f_equal String.length) in H.
    rewrite !string_length_app in H. simpl in H. lia.
  - cbn in H. injection H as -> H. f_equal. by apply IH.
Qed.

(** The count can be read off the message. *)
Lemma deleted_message_inj (n m : nat) : deleted_message n = deleted_message m → n = m.
Proof.
  unfold deleted_message. intros H.
  apply (inj (String.append "Deleted ")) in H.
  apply string_app_inj_r in H.
  by apply (inj pretty) in H.
Qed.

(** C6: over a collection whose documents are N completed and M pending
    ones, with the server reachable, delete-all-completed answers 200 with
    the count N in its message, removes N documents and leaves exactly the
    M pending documents. *)
Theorem C6_delete_all_completed (R : Runtime) (E : Env) (st : Store) :
  fault E = None →
  Forall (λ d, has_status "Completed" d ∨ has_status "Pending" d) (docs st) →
  let N := length (filter (has_status "Completed") (docs st)) in
  let M := length (filter (has_status "Pending") (docs st)) in
  ∃ st',
    deleteCompleted R E st = (json (PMessage (deleted_message N)), st')
    ∧ docs st' = filter (has_status "Pending") (docs st)
    ∧ length (docs st') = M
    ∧ length (docs st) = (N + length (docs st'))%nat
    ∧ Forall (λ d, ¬ has_status "Completed" d) (docs st').
Proof.
  intros HE Hall N M.
  exists (with_docs (filter (λ d, ¬ has_status "Completed" d) (docs st))
            (called CallDeleteMany st)).
  assert (filter (λ d, ¬ has_status "Completed" d) (docs st)
          = filter (has_status "Pending") (docs st)) as Hrest.
  { clear N M. induction Hall as [|d l Hd _ IH]; [done|].
    rewrite !filter_cons, IH.
    destruct Hd as [Hd|Hd].
    - rewrite decide_False by naive_solver.
      rewrite decide_False; [done|]. unfold has_status in *. congruence.
    - rewrite decide_True; [by rewrite decide_True|].
      unfold has_status in *. congruence. }
  split_and!.
  - unfold deleteCompleted, Task_deleteMany_completed, reply. by rewrite HE.
  - done.
  - simpl. by rewrite Hrest.
  - simpl. unfold N. rewrite <-length_app.
    apply Permutation_length. symmetry. apply filter_app_complement.
  - simpl. apply Forall_forall. by intros d [? _]%list_elem_of_filter.
Qed.

Lemma C6_witness :
  ∃ st',
    deleteCompleted sampleRuntime (env 3000 idC) storeAB
      = (json (PMessage (deleted_message 1)), st')
    ∧ docs st' = filter (has_status "Pending") (docs storeAB)
    ∧ length (docs st') = 1%nat
    ∧ length (docs storeAB) = (1 + length (docs st'))%nat
    ∧ Forall (λ d, ¬ has_status "Completed" d) (docs st').
Proof.
  apply (C6_delete_all_completed sampleRuntime (env 3000 idC) storeAB).
  - reflexivity.
  - apply (bool_decide_unpack _). vm_compute; reflexivity.
Defined.

(** With no completed task the count is 0 and nothing is removed. *)
Example delete_completed_none :
  let st := run sampleRuntime [(env 1000 idA, Create bodyA)] emptyStore in
  let r := deleteCompleted sampleRuntime (env 3000 idC) st in
  r.1 = json (PMessage "Deleted 0 completed tasks.") ∧ docs r.2 = docs st.
Proof. cbv zeta. split; vm_compute; reflexivity. Qed.

(** Create A, create B (completed), list, delete the completed, list. *)
Example end_to_end :
  titles (getTasks sampleRuntime (env 3000 idC) storeAB)
    = [Some (VStr "Buy milk"); Some (VStr "Write report")]
  ∧ (deleteCompleted sampleRuntime (env 3000 idC) storeAB).1
    = json (PMessage "Deleted 1 completed tasks.")
  ∧ titles (getTasks sampleRuntime (env 4000 idC)
              (deleteCompleted sampleRuntime (env 3000 idC) storeAB).2)
    = [Some (VStr "Write report")].
Proof. split_and!; vm_compute; reflexivity. Qed.

(** ** Keyword search *)







(** "Buy milk" is found by [milk], [MILK] and [y mi]. *)
Example search_buy_milk :
  titles (searchTasks sampleRuntime (env 3000 idC) "milk" storeAB) = [Some (VStr "Buy milk")]
  ∧ titles (searchTasks sampleRuntime (env 3000 idC) "MILK" storeAB) = [Some (VStr "Buy milk")]
  ∧ titles (searchTasks sampleRuntime (env 3000 idC) "y mi" storeAB) = [Some (VStr "Buy milk")].
Proof. split_and!; vm_compute; reflexivity. Qed.

(** Metacharacters keep their meaning: an anchor confines the match to the
    start, and the option [i] is what makes the search case-insensitive. *)
Example search_pattern_semantics :
  titles (searchTasks sampleRuntime (env 3000 idC) "^write" storeAB) = [Some (VStr "Write report")]
  ∧ titles (searchTasks sampleRuntime (env 3000 idC) "^report" storeAB) = []
  ∧ titles (searchTasks sampleRuntime (env 3000 idC) "report" storeAB) = [Some (VStr "Write report")]
  ∧ filter (title_or_description (contains "^write")) (docs storeAB) = []
  ∧ (pattern_search sampleRuntime "" {| anchored := false; literal := "MILK" |} "Buy milk" = false)
  ∧ (pattern_search sampleRuntime "i" {| anchored := false; literal := "MILK" |} "Buy milk" = true).
Proof. split_and!; vm_compute; reflexivity. Qed.

(** ** Updating a document *)

Section cast_update.
Context (R : Runtime) (body : Body).

Lemma castUpdate_fold_frame paths (s0 set : Doc) k :
  foldr (castUpdate_step R body) (inr s0) paths = inr set →
  body !! k = None ∨ k ∈ timestampPaths ∨ k ∉ paths.*1 →
  set !! k = s0 !! k.
Proof.
  revert set. induction paths as [|[k' sp] paths IH]; intros set Hfold Hk.
  - by simplify_eq/=.
  - cbn [foldr] in Hfold.
    destruct (foldr (castUpdate_step R body) (inr s0) paths) as [e|set0]; [done|].
    assert (set0 !! k = s0 !! k) as Hset0.
    { apply IH; [done|]. destruct Hk as [?|[?|Hk]]; auto.
      right; right. intros ?. apply Hk. cbn. by right. }
    unfold castUpdate_step in Hfold. cbn [fst snd] in Hfold.
    case_bool_decide as Himm; [by simplify_eq|].
    destruct (body !! k') as [v|] eqn:Hv; [|by simplify_eq].
    destruct (castForUpdate R (path_type sp) v) as [b| |]; [|by simplify_eq|done].
    simplify_eq.
    rewrite lookup_insert_ne; [done|]. intros ->.
    destruct Hk as [?|[?|Hk]]; [congruence|done|]. apply Hk. cbn. by left.
Qed.

Lemma castUpdate_fold_supplied paths (s0 set : Doc) k sp v :
  NoDup paths.*1 →
  foldr (castUpdate_step R body) (inr s0) paths = inr set →
  (k, sp) ∈ paths → k ∉ timestampPaths → body !! k = Some v →
  match castForUpdate R (path_type sp) v with
  | CastTo b => set !! k = Some b
  | CastSkip => set !! k = s0 !! k
  | CastFail => False
  end.
Proof.
  revert set. induction paths as [|[k' sp'] paths IH]; intros set Hnd Hfold Hin Hk Hv.
  - by apply elem_of_nil in Hin.
  - cbn in Hnd. apply NoDup_cons in Hnd as [Hk' Hnd].
    cbn [foldr] in Hfold.
    destruct (foldr (castUpdate_step R body) (inr s0) paths) as [e|set0] eqn:Hrec; [done|].
    unfold castUpdate_step in Hfold. cbn [fst snd] in Hfold.
    apply elem_of_cons in Hin as [[= <- <-]|Hin].
    + rewrite bool_decide_eq_false_2 in Hfold by done.
      rewrite Hv in Hfold.
      destruct (castForUpdate R (path_type sp) v) as [b| |]; [| |done]; simplify_eq.
      * by rewrite lookup_insert_eq.
      * apply (castUpdate_fold_frame paths s0 set k Hrec). right; right.
        intros Hin. apply Hk'. by cbn.
    + pose proof (IH set0 Hnd eq_refl Hin Hk Hv) as Hset0.
      assert (k ≠ k') as Hne.
      { intros ->. apply Hk'. apply list_elem_of_fmap. by exists (k', sp). }
      assert (set !! k = set0 !! k) as ->; [|done].
      case_bool_decide; [by simplify_eq|].
      destruct (body !! k') as [v'|]; [|by simplify_eq].
      destruct (castForUpdate R (path_type sp') v') as [b'| |]; [| |done]; simplify_eq.
      * by rewrite lookup_insert_ne.
      * done.
Qed.

Lemma castUpdate_fold_ok paths (s0 : Doc) :
  (∀ k sp v, (k, sp) ∈ paths → body !! k = Some v →
     castForUpdate R (path_type sp) v ≠ CastFail) →
  ∃ set, foldr (castUpdate_step R body) (inr s0) paths = inr set.
Proof.
  induction paths as [|[k' sp'] paths IH]; intros Hcast; [by eexists|].
  destruct IH as [set0 Hset0].
  { intros k sp v Hin. apply Hcast. by right. }
  cbn [foldr]. rewrite Hset0. unfold castUpdate_step. cbn [fst snd].
  case_bool_decide; [by eexists|].
  destruct (body !! k') as [v'|] eqn:Hv'; [|by eexists].
  pose proof (Hcast k' sp' v') as Hb.
  destruct (castForUpdate R (path_type sp') v'); [by eexists|by eexists|].
  exfalso. apply Hb; [by left|done|done].
Qed.
End cast_update.

Lemma taskSchema_NoDup : NoDup taskSchema.*1.
Proof. apply (bool_decide_unpack _). vm_compute; reflexivity. Qed.

(** A body none of whose members is named like an operator or a dotted
    path is a [$set] document. *)
Lemma castUpdate_no_operator R E (body : Body) :
  (∀ k, is_Some (body !! k) → is_operator k = false ∧ is_dotted k = false) →
  castUpdate R E body
    = match castSet R E body with
      | inl e => inl e
      | inr set => inr (SetUnset set [])
      end.
Proof.
  intros Hops. unfold castUpdate.
  destruct (special_keys body) as [|op ops] eqn:Hf; [done|].
  assert (op ∈ special_keys body) as Hop by (rewrite Hf; left).
  apply list_elem_of_filter in Hop as [Hop Hin].
  apply list_elem_of_fmap in Hin as ([k v] & -> & Hin%elem_of_map_to_list).
  destruct (Hops k) as [Ho Hd]; [by eexists|].
  cbn [fst] in Hop. by rewrite Ho, Hd in Hop.
Qed.







(** The edit of task A succeeds, sets the description and leaves the title,
    the status, the identifier and the creation time as they were, although
    the body names a creation time of its own. *)
Example put_edit_task_A :
  let r := putTask sampleRuntime (env 3000 idC) idA bodyEdit storeAB in
  code r.1 = 200
  ∧ (λ d : Doc, (d !! "title", d !! "description", d !! "status", d !! "_id",
                 d !! "createdAt", d !! "updatedAt")) <$> docs r.2 !! 0%nat
    = Some (Some (VStr "Write report"), Some (VStr "due Friday"), Some (VStr "Pending"),
            Some (VOid idA), Some (VDate 1000), Some (VDate 3000)).
Proof. cbv zeta. split; vm_compute; reflexivity. Qed.

Lemma update_existing_ok R E id body st oid i d set :
  objectIdOfString id = Some oid →
  list_find (has_id oid) (docs st) = Some (i, d) →
  castUpdate R E body = inr (SetUnset set []) →
  fault E = None →
  set !! "_id" = None →
  Task_findByIdAndUpdate R E id body st
    = (Resolved (Some (set ∪ d)),
       with_docs (<[i := set ∪ d]> (docs st)) (called CallFindByIdAndUpdate st)).
Proof.
  intros Hoid Hfind Hset HE Hid. unfold Task_findByIdAndUpdate, reply.
  rewrite Hoid, Hset, HE. cbn [called docs apply_update foldr]. rewrite Hfind.
  rewrite bool_decide_eq_true_2; [done|]. by apply lookup_union_r.
Qed.

Lemma status_path sp : ("status", sp) ∈ taskSchema → path_type sp = TString.
Proof.
  intros Hin. unfold taskSchema, declaredPaths, implicitPaths in Hin. cbn in Hin.
  repeat (apply elem_of_cons in Hin as [Heq|Hin]; [by simplify_eq|]).
  by apply elem_of_nil in Hin.
Qed.

(** The update of a status update: a [$set] document of two members. *)
Lemma castUpdate_status_only R E (s : string) :
  castUpdate R E (status_only (Some (JStr s)))
    = inr (SetUnset (<["status" := VStr s]> {["updatedAt" := VDate (now E)]}) []).
Proof.
  assert (∀ k, is_Some (status_only (Some (JStr s)) !! k) → k = "status") as Hkey.
  { intros k [v Hv]. cbn in Hv. by apply lookup_singleton_Some in Hv as [-> _]. }
  rewrite castUpdate_no_operator; [|by intros k ->%Hkey].
  unfold castSet.
  destruct (castUpdate_fold_ok R (status_only (Some (JStr s))) taskSchema
              {["updatedAt" := VDate (now E)]}) as [set Hset].
  { intros k sp v Hin Hv. assert (k = "status") as -> by (apply Hkey; by eexists).
    rewrite (status_path sp Hin).
    cbn in Hv. rewrite lookup_singleton_eq in Hv. by simplify_eq. }
  rewrite Hset. do 2 f_equal. apply map_eq. intros k.
  destruct (decide (k = "status")) as [->|Hne].
  - rewrite lookup_insert_eq.
    pose proof (castUpdate_fold_supplied R _ taskSchema _ set "status"
                {| path_type := TString; path_required := false;
                   path_enum := Some ["Pending"; "Completed"];
                   path_default := Some (VStr "Pending") |} (JStr s)
                taskSchema_NoDup Hset) as Hsup.
    apply Hsup.
    + unfold taskSchema, declaredPaths. cbn. do 3 right. left.
    + apply (bool_decide_unpack _). vm_compute; reflexivity.
    + cbn. by rewrite lookup_singleton_eq.
  - rewrite lookup_insert_ne by done.
    apply (castUpdate_fold_frame R _ taskSchema _ set k Hset).
    left. cbn. by rewrite lookup_singleton_ne.
Qed.

(** C4: a status update with a status of the enumeration on an existing
    task, the server being reachable, answers 200 with the updated
    document; of that document only [status] and [updatedAt] change, every
    other member ([_id], [title], [description], [dueDate], [createdAt])
    is as before; and every other document of the collection is as
    before. *)
Theorem C4_status_update (R : Runtime) (E : Env) (id s : string) (body : Body)
    (st : Store) (oid : bval) (i : nat) (d : Doc) :
  body !! "status" = Some (JStr s) →
  s ∈ ["Pending"; "Completed"] →
  fault E = None →
  objectIdOfString id = Some oid →
  list_find (has_id oid) (docs st) = Some (i, d) →
  ∃ d' st',
    patchStatus R E id body st = (json (PTask d'), st')
    ∧ docs st' = <[i := d']> (docs st)
    ∧ d' !! "status" = Some (VStr s)
    ∧ d' !! "updatedAt" = Some (VDate (now E))
    ∧ (∀ k, k ≠ "status" → k ≠ "updatedAt" → d' !! k = d !! k)
    ∧ (∀ j, j ≠ i → docs st' !! j = docs st !! j)
    ∧ length (docs st') = length (docs st).
Proof.
  intros Hbody Hs HE Hoid Hfind.
  set (upd := <["status" := VStr s]> {["updatedAt" := VDate (now E)]} : Doc).
  exists (upd ∪ d),
    (with_docs (<[i := upd ∪ d]> (docs st)) (called CallFindByIdAndUpdate st)).
  split_and!.
  - unfold patchStatus. rewrite Hbody. cbn [includes_status].
    rewrite bool_decide_eq_true_2 by done. cbn [negb].
    by rewrite (update_existing_ok R E id _ st oid i d upd Hoid Hfind
                  (castUpdate_status_only R E s) HE).
  - done.
  - apply lookup_union_Some_l. apply lookup_insert_eq.
  - apply lookup_union_Some_l. unfold upd.
    by rewrite lookup_insert_ne, lookup_singleton_eq.
  - intros k Hk1 Hk2. apply lookup_union_r. unfold upd.
    by rewrite lookup_insert_ne, lookup_singleton_ne.
  - intros j Hj. cbn. by apply list_lookup_insert_ne.
  - cbn. apply length_insert.
Qed.

Lemma C4_witness :
  ∃ d' st',
    patchStatus sampleRuntime (env 3000 idC) idA {["status" := JStr "Completed"]} storeAB
      = (json (PTask d'), st')
    ∧ docs st' = <[0%nat := d']> (docs storeAB)
    ∧ d' !! "status" = Some (VStr "Completed")
    ∧ d' !! "updatedAt" = Some (VDate (now (env 3000 idC)))
    ∧ (∀ k, k ≠ "status" → k ≠ "updatedAt" → d' !! k = docA !! k)
    ∧ (∀ j, j ≠ 0%nat → docs st' !! j = docs storeAB !! j)
    ∧ length (docs st') = length (docs storeAB).
Proof.
  apply (C4_status_update sampleRuntime (env 3000 idC) idA "Completed"
           {["status" := JStr "Completed"]} storeAB (VOid idA) 0 docA).
  - vm_compute; reflexivity.
  - apply (bool_decide_unpack _). vm_compute; reflexivity.
  - reflexivity.
  - vm_compute; reflexivity.
  - vm_compute; reflexivity.
Defined.

(** ** Creating a document *)

Section construct.
Context (R : Runtime).

Lemma construct_fold_ext (b1 b2 : Body) paths acc :
  (∀ k, k ∈ paths.*1 → b1 !! k = b2 !! k) →
  foldr (construct_step R b1) acc paths = foldr (construct_step R b2) acc paths.
Proof.
  induction paths as [|[k sp] paths IH]; intros Hagree; [done|].
  cbn [foldr]. rewrite IH by (intros k' Hk'; apply Hagree; by right).
  unfold construct_step. cbn [fst snd]. rewrite (Hagree k); [done|by left].
Qed.

Lemma construct_fold_keys (body : Body) paths acc k :
  is_Some ((foldr (construct_step R body) acc paths).1 !! k) →
  is_Some (acc.1 !! k) ∨ k ∈ paths.*1.
Proof.
  induction paths as [|[k' sp] paths IH]; [by left|].
  cbn [foldr]. unfold construct_step at 1. cbn [fst snd].
  destruct (body !! k') as [v|].
  - destruct (cast R (path_type sp) v) as [b| |]; cbn [fst].
    + destruct (decide (k = k')) as [->|Hne]; [intros _; right; by left|].
      rewrite lookup_insert_ne by done.
      intros [?|?]%IH; [by left|right; by right].
    + intros [?|?]%IH; [by left|right; by right].
    + intros [?|?]%IH; [by left|right; by right].
  - intros [?|?]%IH; [by left|right; by right].
Qed.

Lemma construct_fold_frame (body : Body) paths acc k :
  body !! k = None ∨ k ∉ paths.*1 →
  (foldr (construct_step R body) acc paths).1 !! k = acc.1 !! k.
Proof.
  intros Hk. induction paths as [|[k' sp] paths IH]; [done|].
  assert (body !! k = None ∨ k ∉ paths.*1) as Hk'.
  { destruct Hk as [?|Hk]; [by left|]. right. intros ?. apply Hk. by right. }
  cbn [foldr]. unfold construct_step at 1. cbn [fst snd].
  destruct (body !! k') as [v|] eqn:Hv; [|by apply IH].
  destruct (cast R (path_type sp) v) as [b| |]; cbn [fst]; [|by apply IH|by apply IH].
  rewrite lookup_insert_ne; [by apply IH|]. intros ->.
  destruct Hk as [?|Hk]; [congruence|]. apply Hk. by left.
Qed.

Lemma construct_fold_supplied (body : Body) paths acc k sp v :
  NoDup paths.*1 →
  (k, sp) ∈ paths → body !! k = Some v →
  (foldr (construct_step R body) acc paths).1 !! k
    = match cast R (path_type sp) v with
      | CastTo b => Some b
      | _ => acc.1 !! k
      end.
Proof.
  intros Hnd Hin Hv. induction paths as [|[k' sp'] paths IH]; [by apply elem_of_nil in Hin|].
  cbn in Hnd. apply NoDup_cons in Hnd as [Hk' Hnd].
  cbn [foldr]. unfold construct_step at 1. cbn [fst snd].
  apply elem_of_cons in Hin as [[= <- <-]|Hin].
  - rewrite Hv.
    destruct (cast R (path_type sp) v) as [b| |]; cbn [fst].
    + by rewrite lookup_insert_eq.
    + apply construct_fold_frame. by right.
    + apply construct_fold_frame. by right.
  - assert (k ≠ k') as Hne.
    { intros ->. apply Hk'. apply list_elem_of_fmap. by exists (k', sp). }
    destruct (body !! k') as [v'|]; [|by apply IH].
    destruct (cast R (path_type sp') v') as [b'| |]; cbn [fst]; [|by apply IH|by apply IH].
    rewrite lookup_insert_ne by done. by apply IH.
Qed.
End construct.

Lemma schema_members_lookup (body : Body) k :
  k ∈ taskSchema.*1 → schema_members body !! k = body !! k.
Proof.
  intros Hk. unfold schema_members. rewrite map_lookup_filter.
  destruct (body !! k) as [v|]; [|done]. cbn. by rewrite option_guard_True.
Qed.

Lemma construct_schema_members R E body :
  construct R E (schema_members body) = construct R E body.
Proof.
  unfold construct. apply construct_fold_ext.
  intros k Hk. by apply schema_members_lookup.
Qed.

Lemma defaults_keys E k : is_Some (defaults E !! k) → k ∈ taskSchema.*1.
Proof.
  unfold defaults. cbn.
  destruct (decide (k = "_id")) as [->|H1].
  { intros _. apply (bool_decide_unpack _). vm_compute; reflexivity. }
  rewrite lookup_insert_ne by done.
  destruct (decide (k = "status")) as [->|H2].
  { intros _. apply (bool_decide_unpack _). vm_compute; reflexivity. }
  rewrite lookup_insert_ne by done. rewrite lookup_empty. by intros [? ?].
Qed.

Lemma stamp_new_keys E (d : Doc) k :
  is_Some (stamp_new E d !! k) → is_Some (d !! k) ∨ k ∈ taskSchema.*1.
Proof.
  unfold stamp_new.
  destruct (decide (k = "__v")) as [->|H1].
  { intros _. right. apply (bool_decide_unpack _). vm_compute; reflexivity. }
  rewrite lookup_insert_ne by done.
  destruct (decide (k = "updatedAt")) as [->|H2].
  { intros _. right. apply (bool_decide_unpack _). vm_compute; reflexivity. }
  rewrite lookup_insert_ne by done.
  destruct (decide (k = "createdAt")) as [->|H3].
  { intros _. right. apply (bool_decide_unpack _). vm_compute; reflexivity. }
  rewrite lookup_insert_ne by done. by left.
Qed.

Lemma stamp_new_other E (d : Doc) k :
  k ≠ "createdAt" → k ≠ "updatedAt" → k ≠ "__v" → stamp_new E d !! k = d !! k.
Proof. intros H1 H2 H3. unfold stamp_new. by rewrite !lookup_insert_ne. Qed.

(** The document sent to the server is the document of the program, but
    for the identifier given to one whose [_id] is [null]. *)
Lemma inserted_cases E (d : Doc) :
  is_Some (d !! "_id") →
  (d !! "_id" ≠ Some VNull ∧ inserted E d = d)
  ∨ (d !! "_id" = Some VNull ∧ inserted E d = <["_id" := VOid (driverId E)]> d).
Proof.
  intros [x Hx]. unfold inserted. rewrite Hx.
  destruct x; [right|left..]; by rewrite ?Hx.
Qed.

Lemma inserted_other E (d : Doc) k : k ≠ "_id" → inserted E d !! k = d !! k.
Proof.
  intros Hk. unfold inserted.
  destruct (d !! "_id") as [[]|]; by rewrite ?lookup_insert_ne.
Qed.

(** What a successful [save] has done. *)
Lemma Task_save_resolved R E body st d st' :
  Task_save R E body st = (Resolved d, st') →
  d = stamp_new E (construct R E body).1
  ∧ (construct R E body).2 = []
  ∧ validate (construct R E body).1 = []
  ∧ fault E = None
  ∧ st' = with_docs (docs st ++ [inserted E d]) (called CallSave st).
Proof.
  unfold Task_save, reply. destruct (construct R E body) as [d0 errs] eqn:Hc. cbn [fst snd].
  destruct (errs ++ validate d0) as [|e es] eqn:Herrs; [|done].
  apply app_eq_nil in Herrs as [-> Hval].
  destruct (fault E) as [[msg|msg]|]; [done|by case_bool_decide|].
  case_bool_decide; [done|]. intros [= <- <-]. by rewrite Hval.
Qed.

Lemma construct_id R E (body : Body) : is_Some ((construct R E body).1 !! "_id").
Proof.
  unfold construct. destruct (body !! "_id") as [v|] eqn:Hv.
  - rewrite (construct_fold_supplied R body taskSchema _ "_id" (plain TObjectId) v
               taskSchema_NoDup); [|by do 4 right; left|done].
    destruct (cast R _ v); by eexists.
  - rewrite construct_fold_frame by by left. by eexists.
Qed.

(** C10 as amended: strict mode discards the members of a create body that
    are under no path of the schema, the declared paths and the implicit
    ones ([_id], [createdAt], [updatedAt], [__v]): the response and the
    store are those of the same request without these members, so they
    cause no error; a created document is appended to the collection, as
    the response shows it unless its [_id] is [null], in which case the
    stored document has an identifier of the driver's in its place; it has
    members under schema paths only; and when the body names no implicit
    path, its [_id] is the generated one and both timestamps are the time
    of the request. *)
Theorem C10_unknown_members_discarded (R : Runtime) (E : Env) (body : Body) (st : Store) :
  postTask R E body st = postTask R E (schema_members body) st
  ∧ ∀ d st', postTask R E body st = (status_json 201 (PTask d), st') →
      docs st' = docs st ++ [inserted E d]
      ∧ ((d !! "_id" ≠ Some VNull ∧ inserted E d = d)
         ∨ (d !! "_id" = Some VNull
            ∧ inserted E d = <["_id" := VOid (driverId E)]> d))
      ∧ (∀ k, is_Some (d !! k) → k ∈ taskSchema.*1)
      ∧ ((∀ k, k ∈ implicitPaths.*1 → body !! k = None) →
         d !! "_id" = Some (VOid (freshId E))
         ∧ d !! "createdAt" = Some (VDate (now E))
         ∧ d !! "updatedAt" = Some (VDate (now E))
         ∧ inserted E d = d).
Proof.
  split.
  { unfold postTask, Task_save. by rewrite construct_schema_members. }
  intros d st' Hpost. unfold postTask in Hpost.
  destruct (Task_save R E body st) as [[d1|e] st1] eqn:Hsave; [|done].
  injection Hpost as -> ->.
  apply Task_save_resolved in Hsave as (Hd & _ & _ & _ & ->).
  split_and!.
  - done.
  - apply inserted_cases. rewrite Hd, stamp_new_other by done. apply construct_id.
  - intros k Hk. rewrite Hd in Hk.
    apply stamp_new_keys in Hk as [Hk|Hk]; [|done].
    apply construct_fold_keys in Hk as [Hk|Hk]; [|done].
    by apply (defaults_keys E).
  - intros Himplicit.
    assert ((construct R E body).1 !! "_id" = Some (VOid (freshId E))) as Hid.
    { unfold construct. rewrite construct_fold_frame.
      - cbn. apply lookup_insert_eq.
      - left. apply Himplicit. apply (bool_decide_unpack _). vm_compute; reflexivity. }
    assert ((construct R E body).1 !! "createdAt" = None) as Hcreated.
    { unfold construct. rewrite construct_fold_frame.
      - vm_compute; reflexivity.
      - left. apply Himplicit. apply (bool_decide_unpack _). vm_compute; reflexivity. }
    assert (d !! "_id" = Some (VOid (freshId E))) as Hdid.
    { by rewrite Hd, stamp_new_other. }
    rewrite Hd. unfold stamp_new. rewrite Hcreated. split_and!.
    + by rewrite !lookup_insert_ne.
    + by rewrite lookup_insert_ne, lookup_insert_ne, lookup_insert_eq.
    + by rewrite lookup_insert_ne, lookup_insert_eq.
    + rewrite Hd in Hdid. unfold stamp_new in Hdid. rewrite Hcreated in Hdid.
      unfold inserted. by rewrite Hdid.
Qed.

Lemma C10_witness :
  docs (postTask sampleRuntime (env 3000 idC) bodyExtra storeAB).2
    = docs storeAB ++ [docC]
  ∧ (∀ k, is_Some (docC !! k) → k ∈ taskSchema.*1)
  ∧ ((∀ k, k ∈ implicitPaths.*1 → bodyExtra !! k = None) →
     docC !! "_id" = Some (VOid (freshId (env 3000 idC)))
     ∧ docC !! "createdAt" = Some (VDate (now (env 3000 idC)))
     ∧ docC !! "updatedAt" = Some (VDate (now (env 3000 idC)))
     ∧ inserted (env 3000 idC) docC = docC).
Proof.
  destruct (C10_unknown_members_discarded sampleRuntime (env 3000 idC) bodyExtra storeAB)
    as [_ Hcreated].
  destruct (Hcreated docC (postTask sampleRuntime (env 3000 idC) bodyExtra storeAB).2)
    as (Hdocs & _ & Hkeys & Hgen).
  - vm_compute; reflexivity.
  - split_and!; [|done|done]. rewrite Hdocs. f_equal; try (vm_compute; reflexivity).
Defined.

(** The members [priority] and [owner] of the body leave no trace. *)
Example create_with_extra_members :
  postTask sampleRuntime (env 3000 idC) bodyExtra storeAB
    = postTask sampleRuntime (env 3000 idC) {["title" := JStr "Call the bank"]} storeAB
  ∧ map_to_list docC
    = [("__v", VNum "0"); ("_id", VOid idC); ("status", VStr "Pending");
       ("createdAt", VDate 3000); ("updatedAt", VDate 3000);
       ("title", VStr "Call the bank")].
Proof. split; vm_compute; reflexivity. Qed.

(** A create body that sets [_id] to [null]: the response shows [null],
    the stored document carries the identifier the driver gave it. *)
Example create_with_null_id :
  let r := postTask sampleRuntime (env 3000 idC) (<["_id" := JNull]> bodyA) emptyStore in
  code r.1 = 201
  ∧ match payload r.1 with PTask d => d !! "_id" | _ => None end = Some VNull
  ∧ (λ d : Doc, d !! "_id") <$> docs r.2 = [Some (VOid idD)].
Proof. cbv zeta. split_and!; vm_compute; reflexivity. Qed.

(** The claim as stated fails for members named like an implicit path,
    which are outside the four declared ones: [_id] is cast and a value
    that is no identifier fails the request; one that is an identifier is
    stored in place of a generated one; and a [createdAt] of the client's
    is stored as the creation time. *)
Lemma C10_counterexample :
  code (postTask sampleRuntime (env 3000 idC) bodyA emptyStore).1 = 201
  ∧ code (postTask sampleRuntime (env 3000 idC) (<["_id" := JStr "zz"]> bodyA) emptyStore).1 = 400
  ∧ (λ d : Doc, d !! "_id")
      <$> docs (postTask sampleRuntime (env 3000 idC) (<["_id" := JStr idB]> bodyA) emptyStore).2
    = [Some (VOid idB)]
  ∧ (λ d : Doc, d !! "createdAt")
      <$> docs (postTask sampleRuntime (env 3000 idC) (<["createdAt" := JNum "5"]> bodyA) emptyStore).2
    = [Some (VDate 5)].
Proof. split_and!; vm_compute; reflexivity. Qed.

(** ** The schema invariant *)

Lemma validate_nil_title (d : Doc) :
  validate d = [] → check_required (d !! "title") = true.
Proof.
  unfold validate. cbn. by destruct (check_required (d !! "title")).
Qed.

Lemma validate_nil_status (d : Doc) :
  validate d = [] → check_enum ["Pending"; "Completed"] (d !! "status") = true.
Proof.
  unfold validate. cbn.
  destruct (check_required (d !! "title")); [|done]. cbn.
  by destruct (check_enum ["Pending"; "Completed"] (d !! "status")).
Qed.

(** A string path holds [null] or a string after a cast. *)
Lemma castString_cases R v :
  castString R v = CastTo VNull ∧ v = JNull
  ∨ (∃ s, castString R v = CastTo (VStr s))
  ∨ castString R v = CastFail.
Proof.
  destruct v as [|b|n|s|l|m]; cbn; eauto.
  - destruct (stringOfCompound R (JArr l)); cbn; eauto.
  - destruct (stringOfCompound R (JObj m)); cbn; eauto.
Qed.

Lemma construct_title R E (body : Body) :
  (construct R E body).1 !! "title"
    = match body !! "title" with
      | Some v => match castString R v with CastTo b => Some b | _ => None end
      | None => None
      end.
Proof.
  unfold construct. destruct (body !! "title") as [v|] eqn:Hv.
  - by rewrite (construct_fold_supplied R body taskSchema _ "title"
               {| path_type := TString; path_required := true;
                  path_enum := None; path_default := None |} v
               taskSchema_NoDup (list_elem_of_here _ _) Hv).
  - rewrite construct_fold_frame by by left. vm_compute; reflexivity.
Qed.

Lemma construct_status R E (body : Body) :
  (construct R E body).1 !! "status"
    = match body !! "status" with
      | Some v =>
          match castString R v with
          | CastTo b => Some b
          | _ => Some (VStr "Pending")
          end
      | None => Some (VStr "Pending")
      end.
Proof.
  unfold construct. destruct (body !! "status") as [v|] eqn:Hv.
  - rewrite (construct_fold_supplied R body taskSchema _ "status"
               {| path_type := TString; path_required := false;
                  path_enum := Some ["Pending"; "Completed"];
                  path_default := Some (VStr "Pending") |} v
               taskSchema_NoDup); [done| |done].
    unfold taskSchema, declaredPaths; cbn; do 3 right; left.
  - rewrite construct_fold_frame by by left. vm_compute; reflexivity.
Qed.

Lemma valid_task_inserted E (d : Doc) : valid_task (inserted E d) = valid_task d.
Proof. unfold valid_task. by rewrite !inserted_other. Qed.

(** A document that [save] stores for a body whose [status] is not [null]
    satisfies the invariant. *)
Lemma Task_save_valid R E body st d st' :
  body !! "status" ≠ Some JNull →
  Task_save R E body st = (Resolved d, st') →
  valid_task d = true.
Proof.
  intros Hnull (-> & _ & Hval & _)%Task_save_resolved.
  pose proof (validate_nil_title _ Hval) as Htitle.
  pose proof (validate_nil_status _ Hval) as Hstatus.
  rewrite construct_title in Htitle. rewrite construct_status in Hstatus.
  unfold valid_task. rewrite !stamp_new_other by done.
  rewrite construct_title, construct_status.
  assert (∃ t, match body !! "title" with
               | Some v => match castString R v with CastTo b => Some b | _ => None end
               | None => None
               end = Some (VStr t)
               ∧ negb (String.eqb t "") = true) as (t & Ht & Hne).
  { destruct (body !! "title") as [v|]; [|done].
    destruct (castString_cases R v) as [[Hc _]|[[s Hc]|Hc]]; rewrite Hc in Htitle |- *;
      try done. by exists s. }
  rewrite Ht, Hne. cbn [andb].
  destruct (body !! "status") as [v|]; [|done].
  destruct (castString_cases R v) as [[Hc ->]|[[s Hc]|Hc]]; rewrite Hc in Hstatus |- *;
    done.
Qed.

(** The calls that write leave the collection as it was, or have changed
    it as follows. *)
Lemma Task_save_docs R E body st :
  docs (Task_save R E body st).2 = docs st
  ∨ ∃ d, docs (Task_save R E body st).2 = docs st ++ [inserted E d]
         ∧ (body !! "status" ≠ Some JNull → valid_task d = true)
         ∧ Forall (λ d', d' !! "_id" ≠ inserted E d !! "_id") (docs st).
Proof.
  destruct (Task_save R E body st) as [o st'] eqn:Hsave.
  pose proof (Task_save_valid R {| fault := None; now := now E; freshId := freshId E;
                                   driverId := driverId E |} body st) as Hvalid.
  revert Hsave Hvalid. unfold Task_save, reply. cbn [fault now freshId driverId].
  unfold stamp_new, inserted. cbn [now driverId].
  destruct (construct R E body) as [d0 errs] eqn:Hc.
  assert (construct R {| fault := None; now := now E; freshId := freshId E;
                         driverId := driverId E |} body = (d0, errs)) as ->.
  { by rewrite <-Hc. }
  destruct (errs ++ validate d0) as [|e es]; [|intros [= <- <-]; by left].
  set (d := <["__v":=_]> _).
  destruct (fault E) as [[msg|msg]|].
  - intros [= <- <-]. by left.
  - case_bool_decide as Hdup; intros [= <- <-] Hvalid; [by left|]. right. exists d.
    split_and!; [done|by eauto|].
    apply Forall_forall. intros d' Hd' Heq. apply Hdup. apply Exists_exists. by exists d'.
  - case_bool_decide as Hdup; intros [= <- <-] Hvalid; [by left|]. right. exists d.
    split_and!; [done|by eauto|].
    apply Forall_forall. intros d' Hd' Heq. apply Hdup. apply Exists_exists. by exists d'.
Qed.

Lemma Task_findByIdAndUpdate_docs R E id body st :
  docs (Task_findByIdAndUpdate R E id body st).2 = docs st
  ∨ ∃ i d u d',
      docs st !! i = Some d
      ∧ castUpdate R E body = inr u
      ∧ apply_update u d = inr d'
      ∧ d' !! "_id" = d !! "_id"
      ∧ docs (Task_findByIdAndUpdate R E id body st).2 = <[i := d']> (docs st).
Proof.
  unfold Task_findByIdAndUpdate.
  destruct (objectIdOfString id) as [oid|]; [|by left].
  destruct (castUpdate R E body) as [e|u]; [by left|].
  destruct (fault E) as [[msg|msg]|]; [by left|..]; cbn [called docs];
    (destruct (list_find _ _) as [[i d]|] eqn:Hfind; [|by left]);
    apply list_find_Some in Hfind as (Hi & _ & _);
    (destruct (apply_update u d) as [e|d'] eqn:Happ; [by left|]);
    (case_bool_decide; [|by left]); right; by exists i, d, u, d'.
Qed.

Lemma Task_findByIdAndDelete_docs E id st :
  docs (Task_findByIdAndDelete E id st).2 = docs st
  ∨ ∃ i d oid,
      objectIdOfString id = Some oid
      ∧ list_find (has_id oid) (docs st) = Some (i, d)
      ∧ docs (Task_findByIdAndDelete E id st).2 = delete i (docs st).
Proof.
  unfold Task_findByIdAndDelete.
  destruct (objectIdOfString id) as [oid|]; [|by left].
  destruct (fault E) as [[msg|msg]|]; [by left|..]; cbn [called docs];
    (destruct (list_find _ _) as [[i d]|] eqn:Hfind; [|by left]);
    right; by exists i, d, oid.
Qed.

Lemma Task_deleteMany_completed_docs E st :
  docs (Task_deleteMany_completed E st).2 = docs st
  ∨ docs (Task_deleteMany_completed E st).2
    = filter (λ d, ¬ has_status "Completed" d) (docs st).
Proof.
  unfold Task_deleteMany_completed.
  destruct (fault E) as [[msg|msg]|]; [by left|by right|by right].
Qed.

(** A handler hands on the store its call on the model leaves. *)
Lemma postTask_store R E body st :
  (postTask R E body st).2 = (Task_save R E body st).2.
Proof. unfold postTask. by destruct (Task_save R E body st) as [[] ?]. Qed.

Lemma putTask_store R E id body st :
  (putTask R E id body st).2 = (Task_findByIdAndUpdate R E id body st).2.
Proof.
  unfold putTask. by destruct (Task_findByIdAndUpdate R E id body st) as [[[]|] ?].
Qed.

Lemma patchStatus_store R E id body st :
  (patchStatus R E id body st).2
    = if includes_status (body !! "status")
      then (Task_findByIdAndUpdate R E id (status_only (body !! "status")) st).2
      else st.
Proof.
  unfold patchStatus. destruct (includes_status (body !! "status")); [|done].
  cbn [negb]. by destruct (Task_findByIdAndUpdate R E id _ st) as [[[]|] ?].
Qed.

Lemma deleteTask_store R E id st :
  (deleteTask R E id st).2 = (Task_findByIdAndDelete E id st).2.
Proof.
  unfold deleteTask. by destruct (Task_findByIdAndDelete E id st) as [[[]|] ?].
Qed.

Lemma deleteCompleted_store R E st :
  (deleteCompleted R E st).2 = (Task_deleteMany_completed E st).2.
Proof.
  unfold deleteCompleted. by destruct (Task_deleteMany_completed E st) as [[] ?].
Qed.

(** The handlers that read leave the documents as they are. *)
Lemma reads_keep_docs R E req st :
  reads_only req = true → docs (app R E req st).2 = docs st.
Proof.
  destruct req; try done; intros _; cbn [app].
  - unfold getTasks, Task_find_sorted. by destruct (fault E).
  - unfold getTask, Task_findById.
    destruct (objectIdOfString id); [|done].
    destruct (fault E); [done|]. by destruct (list_find _ _) as [[]|].
  - unfold getByStatus, Task_find_status. by destruct (fault E).
  - unfold searchTasks, Task_find_regex.
    destruct (fault E); [done|]. by destruct (regexCompile R keyword "i").
Qed.

(** Every request but a full update keeps the invariant. *)
Lemma store_valid_preserved R E req st :
  keeps_invariant req → store_valid st → store_valid (app R E req st).2.
Proof.
  unfold store_valid. intros Hreq Hst.
  destruct (reads_only req) eqn:Hread.
  { by rewrite reads_keep_docs. }
  destruct req as [| |id|body|id body|id body|id|s|k|]; try done; cbn [app].
  - rewrite postTask_store.
    destruct (Task_save_docs R E body st) as [->|(d & -> & Hd & _)]; [done|].
    apply Forall_app. split; [done|]. constructor; [|done].
    rewrite valid_task_inserted. by apply Hd.
  - rewrite patchStatus_store.
    destruct (includes_status (body !! "status")) eqn:Hinc; [|done].
    destruct (body !! "status") as [[| | |s| |]|]; try done.
    cbn in Hinc. apply bool_decide_eq_true in Hinc.
    destruct (Task_findByIdAndUpdate_docs R E id (status_only (Some (JStr s))) st)
      as [->|(i & d & u & d' & Hi & Hu & Happ & _ & ->)]; [done|].
    rewrite castUpdate_status_only in Hu. injection Hu as <-.
    cbn in Happ. injection Happ as <-.
    apply Forall_insert; [done|].
    pose proof (Forall_lookup_1 _ _ _ _ Hst Hi) as Hd. cbn in Hd.
    unfold valid_task in *.
    rewrite (lookup_union_r _ d "title") by done.
    erewrite (lookup_union_Some_l _ d "status"); [|by apply lookup_insert_eq].
    destruct (d !! "title") as [[| t | | | |]|]; try done.
    destruct (d !! "status") as [[| s' | | | |]|]; try done.
    apply andb_prop in Hd as [-> _]. cbn. by apply bool_decide_eq_true.
  - rewrite deleteTask_store.
    destruct (Task_findByIdAndDelete_docs E id st) as [->|(i & d & oid & _ & _ & ->)];
      [done|]. by apply Forall_delete.
  - rewrite deleteCompleted_store.
    destruct (Task_deleteMany_completed_docs E st) as [->| ->]; [done|].
    apply Forall_forall. intros d [_ Hd]%list_elem_of_filter.
    by apply (proj1 (Forall_forall _ _) Hst).
Qed.

(** C1: the invariant does not survive a full update.  After creating
    tasks A and B, a full update of A with the status "Archived" is
    answered with 200 and stores that status; one with an empty title
    stores the empty title. *)
Theorem C1_full_update_breaks_invariant :
  store_valid storeAB
  ∧ code putArchived.1 = 200
  ∧ (λ d : Doc, d !! "status") <$> docs putArchived.2
    = [Some (VStr "Archived"); Some (VStr "Completed")]
  ∧ ¬ store_valid putArchived.2
  ∧ code putUntitled.1 = 200
  ∧ (λ d : Doc, d !! "title") <$> docs putUntitled.2
    = [Some (VStr ""); Some (VStr "Buy milk")]
  ∧ ¬ store_valid putUntitled.2.
Proof.
  unfold store_valid. split_and!.
  - apply (bool_decide_unpack _). vm_compute; reflexivity.
  - vm_compute; reflexivity.
  - vm_compute; reflexivity.
  - apply (bool_decide_unpack _). vm_compute; reflexivity.
  - vm_compute; reflexivity.
  - vm_compute; reflexivity.
  - apply (bool_decide_unpack _). vm_compute; reflexivity.
Qed.

(** * Further properties of the handlers *)

(** ** Get by id *)

Lemma objectIdOfString_Some id oid :
  objectIdOfString id = Some oid ↔ is_hex24 id = true ∧ oid = VOid (lower id).
Proof.
  unfold objectIdOfString.
  destruct (is_hex24 id); split; [by intros [= <-]|by intros [_ ->]|done|by intros [? _]].
Qed.

Lemma getTask_absent R E id st :
  fault E = None → is_hex24 id = true →
  Forall (λ d, d !! "_id" ≠ Some (VOid (lower id))) (docs st) →
  getTask R E id st
    = (status_json 404 (PMessage "Task not found"), called CallFindById st).
Proof.
  intros HE Hid Hnone. unfold getTask, Task_findById.
  rewrite (proj2 (objectIdOfString_Some id _)) by done. rewrite HE. cbn [called docs].
  by rewrite (proj2 (list_find_None _ _) Hnone).
Qed.

(** X1: with the server reachable and a well-formed identifier, get-by-id
    answers 200 with the first document whose [_id] is the requested one,
    and 404 "Task not found" when the collection has none; the documents
    of the collection are left as they are. *)
Theorem X1_get_by_id (R : Runtime) (E : Env) (id : string) (st : Store) :
  fault E = None →
  is_hex24 id = true →
  (∀ i d, list_find (has_id (VOid (lower id))) (docs st) = Some (i, d) →
      getTask R E id st = (json (PTask d), called CallFindById st)
      ∧ d !! "_id" = Some (VOid (lower id))
      ∧ d ∈ docs st)
  ∧ (Forall (λ d, d !! "_id" ≠ Some (VOid (lower id))) (docs st) →
      getTask R E id st
        = (status_json 404 (PMessage "Task not found"), called CallFindById st)).
Proof.
  intros HE Hid.
  assert (objectIdOfString id = Some (VOid (lower id))) as Hoid
    by by apply objectIdOfString_Some.
  split.
  - intros i d Hfind. unfold getTask, Task_findById.
    rewrite Hoid, HE. cbn [called docs]. rewrite Hfind.
    apply list_find_Some in Hfind as (Hi & Hd & _).
    split_and!; [done|done|]. by eapply list_elem_of_lookup_2.
  - by apply getTask_absent.
Qed.

Lemma X1_witness :
  getTask sampleRuntime (env 3000 idC) idA storeAB
    = (json (PTask docA), called CallFindById storeAB)
  ∧ docA !! "_id" = Some (VOid (lower idA))
  ∧ docA ∈ docs storeAB.
Proof.
  destruct (X1_get_by_id sampleRuntime (env 3000 idC) idA storeAB) as [Hfound _].
  - reflexivity.
  - vm_compute; reflexivity.
  - apply (Hfound 0%nat docA). vm_compute; reflexivity.
Defined.

(** X2: an identifier that is not 24 hexadecimal digits is refused before
    the server is asked, whatever the state of the connection: get-by-id
    and delete-by-id answer 500, full update and a status update with a
    valid status answer 400, each with the cast error's message, and the
    documents are left as they are. *)
Theorem X2_malformed_id (R : Runtime) (E : Env) (id : string) (body : Body) (st : Store) :
  is_hex24 id = false →
  let msg := PMessage (message R (CastError TObjectId (JStr id) "_id")) in
  getTask R E id st = (status_json 500 msg, called CallFindById st)
  ∧ deleteTask R E id st = (status_json 500 msg, called CallFindByIdAndDelete st)
  ∧ putTask R E id body st = (status_json 400 msg, called CallFindByIdAndUpdate st)
  ∧ (includes_status (body !! "status") = true →
     patchStatus R E id body st = (status_json 400 msg, called CallFindByIdAndUpdate st)).
Proof.
  intros Hid msg.
  assert (objectIdOfString id = None) as Hoid.
  { unfold objectIdOfString. by rewrite Hid. }
  split_and!.
  - unfold getTask, Task_findById. by rewrite Hoid.
  - unfold deleteTask, Task_findByIdAndDelete. by rewrite Hoid.
  - unfold putTask, Task_findByIdAndUpdate. by rewrite Hoid.
  - intros Hinc. unfold patchStatus, Task_findByIdAndUpdate. by rewrite Hinc, Hoid.
Qed.

Lemma X2_witness :
  getTask sampleRuntime (failing "connection lost" 3000 idC) "42" storeAB
    = (status_json 500 (PMessage "Cast failed"), called CallFindById storeAB)
  ∧ putTask sampleRuntime (env 3000 idC) "42" bodyA storeAB
    = (status_json 400 (PMessage "Cast failed"), called CallFindByIdAndUpdate storeAB).
Proof.
  split.
  - apply (X2_malformed_id sampleRuntime (failing "connection lost" 3000 idC) "42" bodyA storeAB).
    vm_compute; reflexivity.
  - apply (X2_malformed_id sampleRuntime (env 3000 idC) "42" bodyA storeAB).
    vm_compute; reflexivity.
Defined.

(** ** Create *)

Lemma Task_save_fresh R E body st d st' :
  Task_save R E body st = (Resolved d, st') →
  Forall (λ d', d' !! "_id" ≠ inserted E d !! "_id") (docs st).
Proof.
  unfold Task_save, reply. destruct (construct R E body) as [d0 errs].
  destruct (errs ++ validate d0); [|done].
  destruct (fault E) as [[msg|msg]|]; [done|by case_bool_decide|].
  case_bool_decide as Hdup; [done|]. intros [= <- _].
  cbn [called docs] in Hdup.
  apply Forall_forall. intros d' Hd' Heq. apply Hdup.
  apply Exists_exists. by exists d'.
Qed.

(** X3: a task that create answered with 201 is what get-by-id returns
    for its identifier afterwards: the same document, members and
    timestamps unaltered. *)
Theorem X3_create_then_get (R : Runtime) (E E' : Env) (body : Body)
    (st st' : Store) (d : Doc) (id : string) :
  postTask R E body st = (status_json 201 (PTask d), st') →
  d !! "_id" = Some (VOid (lower id)) →
  is_hex24 id = true →
  fault E' = None →
  getTask R E' id st' = (json (PTask d), called CallFindById st').
Proof.
  intros Hpost Hd Hid HE'. unfold postTask in Hpost.
  destruct (Task_save R E body st) as [[d1|e] st1] eqn:Hsave; [|done].
  injection Hpost as -> ->.
  pose proof (Task_save_fresh _ _ _ _ _ _ Hsave) as Hfresh.
  apply Task_save_resolved in Hsave as (_ & _ & _ & _ & ->).
  assert (inserted E d = d) as Hsent by (unfold inserted; by rewrite Hd).
  rewrite Hsent in Hfresh |- *.
  unfold getTask, Task_findById.
  rewrite (proj2 (objectIdOfString_Some id _)) by done. rewrite HE'.
  cbn [called with_docs docs].
  rewrite list_find_app_r.
  - cbn. by rewrite decide_True.
  - apply list_find_None. apply Forall_forall. intros d' Hd'.
    unfold has_id. rewrite <-Hd. by apply (proj1 (Forall_forall _ _) Hfresh).
Qed.

Lemma X3_witness :
  getTask sampleRuntime (env 4000 idA) idC
      (postTask sampleRuntime (env 3000 idC) bodyExtra storeAB).2
    = (json (PTask docC),
       called CallFindById (postTask sampleRuntime (env 3000 idC) bodyExtra storeAB).2).
Proof.
  apply (X3_create_then_get sampleRuntime (env 3000 idC) (env 4000 idA) bodyExtra storeAB).
  - vm_compute; reflexivity.
  - vm_compute; reflexivity.
  - vm_compute; reflexivity.
  - reflexivity.
Defined.

Lemma Task_save_rejects R E body st :
  (construct R E body).2 ++ validate (construct R E body).1 ≠ [] →
  Task_save R E body st
    = (Rejected (ValidationError
                   ((construct R E body).2 ++ validate (construct R E body).1)),
       called CallSave st).
Proof.
  unfold Task_save. destruct (construct R E body) as [d0 errs]. cbn [fst snd].
  by destruct (errs ++ validate d0).
Qed.

Lemma validate_title_required (d : Doc) :
  check_required (d !! "title") = false → ("title", VRequired) ∈ validate d.
Proof. intros Hreq. unfold validate. cbn. rewrite Hreq. cbn. by left. Qed.

Lemma validate_status_enum (d : Doc) (s : string) :
  d !! "status" = Some (VStr s) → s ∉ ["Pending"; "Completed"] →
  ("status", VEnum (VStr s)) ∈ validate d.
Proof.
  intros Hd Hs. unfold validate. cbn. rewrite Hd. cbn.
  rewrite bool_decide_eq_false_2 by done.
  apply elem_of_app. right. by left.
Qed.

(** X4: create without a usable title (no [title] member, [null], or the
    empty string) is answered with 400 and the validation error's message,
    the required-validator of [title] being among its errors; nothing is
    stored. *)
Theorem X4_create_requires_title (R : Runtime) (E : Env) (body : Body) (st : Store) :
  body !! "title" = None ∨ body !! "title" = Some JNull
    ∨ body !! "title" = Some (JStr "") →
  ∃ errs,
    postTask R E body st
      = (status_json 400 (PMessage (message R (ValidationError errs))),
         called CallSave st)
    ∧ ("title", VRequired) ∈ errs.
Proof.
  intros Htitle.
  assert (check_required ((construct R E body).1 !! "title") = false) as Hreq.
  { rewrite construct_title. by destruct Htitle as [->|[->| ->]]. }
  assert (("title", VRequired) ∈ validate (construct R E body).1) as Hin.
  { by apply validate_title_required. }
  exists ((construct R E body).2 ++ validate (construct R E body).1). split.
  - unfold postTask. rewrite Task_save_rejects; [done|].
    intros Hnil. apply app_eq_nil in Hnil as [_ Hnil].
    rewrite Hnil in Hin. by apply elem_of_nil in Hin.
  - apply elem_of_app. by right.
Qed.

Lemma X4_witness :
  ∃ errs,
    postTask sampleRuntime (env 3000 idC) {["description" := JStr "no title"]} storeAB
      = (status_json 400 (PMessage (message sampleRuntime (ValidationError errs))),
         called CallSave storeAB)
    ∧ ("title", VRequired) ∈ errs.
Proof.
  apply (X4_create_requires_title sampleRuntime (env 3000 idC)).
  left. vm_compute; reflexivity.
Defined.

(** X5: create with a [status] that is a string outside the enumeration is
    answered with 400, the enum-validator of [status] being among the
    errors; nothing is stored. *)
Theorem X5_create_validates_status (R : Runtime) (E : Env) (body : Body)
    (st : Store) (s : string) :
  body !! "status" = Some (JStr s) →
  s ∉ ["Pending"; "Completed"] →
  ∃ errs,
    postTask R E body st
      = (status_json 400 (PMessage (message R (ValidationError errs))),
         called CallSave st)
    ∧ ("status", VEnum (VStr s)) ∈ errs.
Proof.
  intros Hstatus Hs.
  assert ((construct R E body).1 !! "status" = Some (VStr s)) as Hd.
  { rewrite construct_status. by rewrite Hstatus. }
  assert (("status", VEnum (VStr s)) ∈ validate (construct R E body).1) as Hin.
  { by apply validate_status_enum. }
  exists ((construct R E body).2 ++ validate (construct R E body).1). split.
  - unfold postTask. rewrite Task_save_rejects; [done|].
    intros Hnil. apply app_eq_nil in Hnil as [_ Hnil].
    rewrite Hnil in Hin. by apply elem_of_nil in Hin.
  - apply elem_of_app. by right.
Qed.

Lemma X5_witness :
  ∃ errs,
    postTask sampleRuntime (env 3000 idC)
        (<["status" := JStr "Archived"]> bodyA) storeAB
      = (status_json 400 (PMessage (message sampleRuntime (ValidationError errs))),
         called CallSave storeAB)
    ∧ ("status", VEnum (VStr "Archived")) ∈ errs.
Proof.
  apply (X5_create_validates_status sampleRuntime (env 3000 idC)).
  - vm_compute; reflexivity.
  - apply (bool_decide_unpack _). vm_compute; reflexivity.
Defined.

Lemma construct_fold_casts R (body : Body) paths acc :
  (foldr (construct_step R body) acc paths).2 = [] →
  ∀ k sp v, (k, sp) ∈ paths → body !! k = Some v →
    cast R (path_type sp) v ≠ CastFail.
Proof.
  induction paths as [|[k' sp'] paths IH]; intros Herrs k sp v Hin Hv.
  { by apply elem_of_nil in Hin. }
  cbn [foldr] in Herrs. unfold construct_step at 1 in Herrs. cbn [fst snd] in Herrs.
  apply elem_of_cons in Hin as [[= <- <-]|Hin].
  - rewrite Hv in Herrs. by destruct (cast R (path_type sp) v).
  - refine (IH _ k sp v Hin Hv).
    destruct (body !! k') as [v'|]; [|done].
    by destruct (cast R (path_type sp') v').
Qed.

Lemma declared_not_stamped k sp :
  (k, sp) ∈ declaredPaths → k ≠ "createdAt" ∧ k ≠ "updatedAt" ∧ k ≠ "__v".
Proof.
  intros Hin. unfold declaredPaths in Hin.
  repeat (apply elem_of_cons in Hin as [[= -> ->]|Hin]; [done|]).
  by apply elem_of_nil in Hin.
Qed.

Lemma defaults_declared E k sp :
  (k, sp) ∈ declaredPaths → defaults E !! k = path_default sp.
Proof.
  intros Hin. unfold declaredPaths in Hin.
  repeat (apply elem_of_cons in Hin as [[= -> ->]|Hin]; [vm_compute; reflexivity|]).
  by apply elem_of_nil in Hin.
Qed.

(** X6: a task that create answered with 201 holds, under each declared
    path the body names, what the submitted value is cast to, and the
    default of the path when the cast leaves the member out; a number
    submitted as [title] is stored as the text it prints as; its [title]
    is a non-empty string; [status] is "Pending" when the body names none;
    [description] and [dueDate] are absent when the body names none; the
    version key is 0 and [updatedAt] equals [createdAt]. *)
Theorem X6_created_task (R : Runtime) (E : Env) (body : Body)
    (st st' : Store) (d : Doc) :
  postTask R E body st = (status_json 201 (PTask d), st') →
  (∀ k sp v, (k, sp) ∈ declaredPaths → body !! k = Some v →
     match cast R (path_type sp) v with
     | CastTo b => d !! k = Some b
     | CastSkip => d !! k = path_default sp
     | CastFail => False
     end)
  ∧ (∀ n, body !! "title" = Some (JNum n) → d !! "title" = Some (VStr n))
  ∧ (∃ t, d !! "title" = Some (VStr t) ∧ t ≠ "")
  ∧ (body !! "status" = None → d !! "status" = Some (VStr "Pending"))
  ∧ (body !! "description" = None → d !! "description" = None)
  ∧ (body !! "dueDate" = None → d !! "dueDate" = None)
  ∧ d !! "__v" = Some (VNum "0")
  ∧ d !! "updatedAt" = d !! "createdAt".
Proof.
  intros Hpost. unfold postTask in Hpost.
  destruct (Task_save R E body st) as [[d1|e] st1] eqn:Hsave; [|done].
  injection Hpost as -> ->.
  apply Task_save_resolved in Hsave as (-> & Herrs & Hval & _ & _).
  split_and!.
  - intros k sp v Hin Hv.
    destruct (declared_not_stamped k sp Hin) as (H1 & H2 & H3).
    assert ((k, sp) ∈ taskSchema) as Hin' by (apply elem_of_app; by left).
    pose proof (construct_fold_casts R body taskSchema _ Herrs k sp v Hin' Hv) as Hb.
    rewrite stamp_new_other by done. unfold construct.
    rewrite (construct_fold_supplied R body taskSchema _ k sp v taskSchema_NoDup Hin' Hv).
    destruct (cast R (path_type sp) v); [done| |done].
    by apply defaults_declared.
  - intros n Hn. rewrite stamp_new_other by done.
    by rewrite construct_title, Hn.
  - apply validate_nil_title in Hval. rewrite stamp_new_other by done.
    rewrite construct_title in Hval |- *.
    destruct (body !! "title") as [v|]; [|done].
    destruct (castString_cases R v) as [[Hc _]|[[s Hc]|Hc]]; rewrite Hc in Hval |- *;
      try done.
    exists s. split; [done|]. intros ->. done.
  - intros Hnone. rewrite stamp_new_other by done. by rewrite construct_status, Hnone.
  - intros Hnone. rewrite stamp_new_other by done. unfold construct.
    rewrite construct_fold_frame by by left. vm_compute; reflexivity.
  - intros Hnone. rewrite stamp_new_other by done. unfold construct.
    rewrite construct_fold_frame by by left. vm_compute; reflexivity.
  - unfold stamp_new. apply lookup_insert_eq.
  - unfold stamp_new.
    by rewrite lookup_insert_ne, lookup_insert_eq, lookup_insert_ne,
      lookup_insert_ne, lookup_insert_eq.
Qed.

Lemma X6_witness :
  (∀ k sp v, (k, sp) ∈ declaredPaths → bodyB !! k = Some v →
     match cast sampleRuntime (path_type sp) v with
     | CastTo b => docB !! k = Some b
     | CastSkip => docB !! k = path_default sp
     | CastFail => False
     end)
  ∧ (∀ n, bodyB !! "title" = Some (JNum n) → docB !! "title" = Some (VStr n))
  ∧ (∃ t, docB !! "title" = Some (VStr t) ∧ t ≠ "")
  ∧ (bodyB !! "status" = None → docB !! "status" = Some (VStr "Pending"))
  ∧ (bodyB !! "description" = None → docB !! "description" = None)
  ∧ (bodyB !! "dueDate" = None → docB !! "dueDate" = None)
  ∧ docB !! "__v" = Some (VNum "0")
  ∧ docB !! "updatedAt" = docB !! "createdAt".
Proof.
  apply (X6_created_task sampleRuntime (env 2000 idB) bodyB
           (run sampleRuntime [(env 1000 idA, Create bodyA)] emptyStore) storeAB docB).
  vm_compute; reflexivity.
Defined.

(** A title sent as the number 1e21 is stored as the text "1e+21". *)
Example create_with_number_title :
  (λ d : Doc, d !! "title")
    <$> docs (postTask sampleRuntime (env 3000 idC) {["title" := JNum "1e+21"]} emptyStore).2
  = [Some (VStr "1e+21")].
Proof. vm_compute; reflexivity. Qed.

(** ** The outcomes of the calls that write *)

Lemma Task_save_calls R E body st :
  calls (Task_save R E body st).2 = calls st ++ [CallSave].
Proof.
  unfold Task_save. destruct (construct R E body) as [d0 errs].
  destruct (errs ++ validate d0); [|done].
  destruct (fault E) as [[msg|msg]|]; [done|..]; by case_bool_decide.
Qed.

Lemma Task_findByIdAndUpdate_calls R E id body st :
  calls (Task_findByIdAndUpdate R E id body st).2 = calls st ++ [CallFindByIdAndUpdate].
Proof.
  unfold Task_findByIdAndUpdate.
  destruct (objectIdOfString id) as [oid|]; [|done].
  destruct (castUpdate R E body) as [e|u]; [done|].
  destruct (fault E) as [[msg|msg]|]; [done|..];
    (destruct (list_find _ _) as [[i d]|]; [|done]);
    (destruct (apply_update u d) as [e|d']; [done|]); by case_bool_decide.
Qed.

Lemma Task_findByIdAndDelete_calls E id st :
  calls (Task_findByIdAndDelete E id st).2 = calls st ++ [CallFindByIdAndDelete].
Proof.
  unfold Task_findByIdAndDelete.
  destruct (objectIdOfString id) as [oid|]; [|done].
  destruct (fault E) as [[msg|msg]|]; [done|..];
    by destruct (list_find _ _) as [[i d]|].
Qed.

Lemma Task_deleteMany_completed_calls E st :
  calls (Task_deleteMany_completed E st).2 = calls st ++ [CallDeleteMany].
Proof. unfold Task_deleteMany_completed. by destruct (fault E) as [[msg|msg]|]. Qed.

(** Unfolds a reading handler down to the decisions it takes. *)
Ltac reading_handler :=
  unfold getRoot, getTasks, getTask, getByStatus, searchTasks,
    Task_find_sorted, Task_findById, Task_find_status, Task_find_regex;
  repeat case_match; simplify_eq; cbn.

(** ** What the handlers leave alone *)

(** A call that is rejected although the server was reached and has
    replied has changed nothing. *)
Lemma Task_save_rejected R E body st e st' :
  (∀ msg, fault E ≠ Some (ReplyLost msg)) →
  Task_save R E body st = (Rejected e, st') → docs st' = docs st.
Proof.
  intros HE. unfold Task_save, reply. destruct (construct R E body) as [d0 errs].
  destruct (errs ++ validate d0); [|by intros [= _ <-]].
  destruct (fault E) as [[msg|msg]|]; [by intros [= _ <-]|by destruct (HE msg)|].
  case_bool_decide; [by intros [= _ <-]|done].
Qed.

Lemma Task_findByIdAndUpdate_unchanged R E id body st o st' :
  (∀ msg, fault E ≠ Some (ReplyLost msg)) →
  Task_findByIdAndUpdate R E id body st = (o, st') →
  (∀ d, o ≠ Resolved (Some d)) →
  docs st' = docs st.
Proof.
  intros HE. unfold Task_findByIdAndUpdate, reply.
  destruct (objectIdOfString id) as [oid|]; [|by intros [= _ <-]].
  destruct (castUpdate R E body) as [e|u]; [by intros [= _ <-]|].
  destruct (fault E) as [[msg|msg]|]; [by intros [= _ <-]|by destruct (HE msg)|].
  destruct (list_find _ _) as [[i d]|]; [|by intros [= _ <-]].
  destruct (apply_update u d) as [e|d']; [by intros [= _ <-]|].
  case_bool_decide; [|by intros [= _ <-]].
  intros [= <- _] Ho. by destruct (Ho d').
Qed.

Lemma Task_findByIdAndDelete_unchanged E id st o st' :
  (∀ msg, fault E ≠ Some (ReplyLost msg)) →
  Task_findByIdAndDelete E id st = (o, st') →
  (∀ d, o ≠ Resolved (Some d)) →
  docs st' = docs st.
Proof.
  intros HE. unfold Task_findByIdAndDelete, reply.
  destruct (objectIdOfString id) as [oid|]; [|by intros [= _ <-]].
  destruct (fault E) as [[msg|msg]|]; [by intros [= _ <-]|by destruct (HE msg)|].
  destruct (list_find _ _) as [[i d]|]; [|by intros [= _ <-]].
  intros [= <- _] Ho. by destruct (Ho d).
Qed.

Lemma Task_deleteMany_completed_rejected E st e st' :
  (∀ msg, fault E ≠ Some (ReplyLost msg)) →
  Task_deleteMany_completed E st = (Rejected e, st') → docs st' = docs st.
Proof.
  intros HE. unfold Task_deleteMany_completed, reply.
  destruct (fault E) as [[msg|msg]|]; [by intros [= _ <-]|by destruct (HE msg)|done].
Qed.

(** X7: every request served by a reading handler leaves the documents of
    the collection exactly as they were, whatever its answer; so does
    every request that is not answered with 200 or 201, unless the reply
    of the server was lost after it had carried the request out; in that
    case delete-all-completed answers 500 with the driver's message and the
    completed tasks are gone. *)
Theorem X7_failures_and_reads_change_nothing (R : Runtime) (E : Env)
    (req : Request) (st : Store) :
  (reads_only req = true → docs (app R E req st).2 = docs st)
  ∧ ((∀ msg, fault E ≠ Some (ReplyLost msg)) →
     succeeded (app R E req st).1 = false →
     docs (app R E req st).2 = docs st)
  ∧ (∀ msg, fault E = Some (ReplyLost msg) →
     (deleteCompleted R E st).1 = status_json 500 (PMessage msg)
     ∧ docs (deleteCompleted R E st).2
       = filter (λ d, ¬ has_status "Completed" d) (docs st)).
Proof.
  split_and!.
  - apply reads_keep_docs.
  - intros HE. destruct (reads_only req) eqn:Hread.
    { intros _. by apply reads_keep_docs. }
    destruct req as [| |id|body|id body|id body|id|s|k|]; try done; cbn [app].
    + unfold postTask.
      destruct (Task_save R E body st) as [[d|e] st'] eqn:Hsave; [done|].
      intros _. by eapply Task_save_rejected.
    + unfold putTask.
      destruct (Task_findByIdAndUpdate R E id body st) as [[[d|]|e] st'] eqn:Hupd;
        [done|..]; intros _; by eapply Task_findByIdAndUpdate_unchanged.
    + unfold patchStatus. destruct (includes_status (body !! "status")); [|done].
      cbn [negb].
      destruct (Task_findByIdAndUpdate R E id _ st) as [[[d|]|e] st'] eqn:Hupd;
        [done|..]; intros _; by eapply Task_findByIdAndUpdate_unchanged.
    + unfold deleteTask.
      destruct (Task_findByIdAndDelete E id st) as [[[d|]|e] st'] eqn:Hdel;
        [done|..]; intros _; by eapply Task_findByIdAndDelete_unchanged.
    + unfold deleteCompleted.
      destruct (Task_deleteMany_completed E st) as [[n|e] st'] eqn:Hdel; [done|].
      intros _. by eapply Task_deleteMany_completed_rejected.
  - intros msg HE.
    unfold deleteCompleted, Task_deleteMany_completed, reply. by rewrite HE.
Qed.

Lemma X7_witness :
  docs (app sampleRuntime (env 3000 idC) (FullUpdate idC bodyEdit) storeAB).2
    = docs storeAB.
Proof.
  apply X7_failures_and_reads_change_nothing.
  - intros msg. discriminate.
  - vm_compute; reflexivity.
Defined.

(** The reply to a delete-all-completed is lost: the answer is 500, and
    task B is gone. *)
Example delete_completed_unanswered :
  let r := deleteCompleted sampleRuntime (unanswered "socket closed" 3000 idC) storeAB in
  r.1 = status_json 500 (PMessage "socket closed")
  ∧ (λ d : Doc, d !! "title") <$> docs r.2 = [Some (VStr "Write report")].
Proof. cbv zeta. split; vm_compute; reflexivity. Qed.

(** X8: every handler issues at most one call on the model, and the
    status of its answer is one of those listed for its route: 500 only
    from the reading and deleting handlers, 400 only from create, full
    update and status update, 404 only from the handlers that take an
    identifier, 201 only from create. *)
Theorem X8_one_call_and_codes (R : Runtime) (E : Env) (req : Request) (st : Store) :
  (calls (app R E req st).2 = calls st
   ∨ ∃ c, calls (app R E req st).2 = calls st ++ [c])
  ∧ code (app R E req st).1 ∈ possible_codes req.
Proof.
  destruct req as [| |id|body|id body|id body|id|s|k|]; cbn [app possible_codes].
  1-3, 8-9: reading_handler;
    (split; [first [by left|right; by eexists]
            |apply (bool_decide_unpack _); vm_compute; reflexivity]).
  - split.
    + right. rewrite postTask_store, Task_save_calls. by eexists.
    + unfold postTask. destruct (Task_save R E body st) as [[?|?] ?];
        apply (bool_decide_unpack _); vm_compute; reflexivity.
  - split.
    + right. rewrite putTask_store, Task_findByIdAndUpdate_calls. by eexists.
    + unfold putTask. destruct (Task_findByIdAndUpdate R E id body st) as [[[?|]|?] ?];
        apply (bool_decide_unpack _); vm_compute; reflexivity.
  - split.
    + rewrite patchStatus_store. destruct (includes_status _); [|by left].
      right. rewrite Task_findByIdAndUpdate_calls. by eexists.
    + unfold patchStatus. destruct (includes_status _); cbn [negb];
        [destruct (Task_findByIdAndUpdate R E id _ st) as [[[?|]|?] ?]|];
        apply (bool_decide_unpack _); vm_compute; reflexivity.
  - split.
    + right. rewrite deleteTask_store, Task_findByIdAndDelete_calls. by eexists.
    + unfold deleteTask. destruct (Task_findByIdAndDelete E id st) as [[[?|]|?] ?];
        apply (bool_decide_unpack _); vm_compute; reflexivity.
  - split.
    + right. rewrite deleteCompleted_store, Task_deleteMany_completed_calls. by eexists.
    + unfold deleteCompleted. destruct (Task_deleteMany_completed E st) as [[?|?] ?];
        apply (bool_decide_unpack _); vm_compute; reflexivity.
Qed.

(** ** Identifiers *)

Lemma NoDup_fmap_delete_others {A B} (f : A → B) (l : list A) i x :
  NoDup (f <$> l) → l !! i = Some x →
  Forall (λ y, f y ≠ f x) (delete i l).
Proof.
  intros Hnd Hi. rewrite <-(take_drop_middle l i x Hi) in Hnd.
  rewrite fmap_app, fmap_cons in Hnd.
  apply NoDup_app in Hnd as (_ & Hleft & Hright).
  apply NoDup_cons in Hright as [Hright _].
  rewrite delete_take_drop. apply Forall_app. split; apply Forall_forall; intros y Hy Heq.
  - apply (Hleft (f y)); [apply list_elem_of_fmap; by exists y|]. rewrite Heq. by left.
  - apply Hright. rewrite <-Heq. apply list_elem_of_fmap. by exists y.
Qed.

(** X9: every request keeps [_id] unique within the collection: create
    refuses an identifier that is taken, the updates leave [_id] as it
    is, and the deletes only remove documents. *)
Theorem X9_ids_stay_unique (R : Runtime) (E : Env) (req : Request) (st : Store) :
  ids_unique st → ids_unique (app R E req st).2.
Proof.
  unfold ids_unique. intros Hst.
  assert (∀ id body,
            NoDup ((λ d : Doc, d !! "_id")
                     <$> docs (Task_findByIdAndUpdate R E id body st).2)) as Hupd.
  { intros id body.
    destruct (Task_findByIdAndUpdate_docs R E id body st)
      as [->|(i & d & u & d' & Hi & _ & _ & Hid & ->)]; [done|].
    rewrite list_fmap_insert.
    rewrite list_insert_id; [done|]. rewrite list_lookup_fmap, Hi. cbn. by f_equal. }
  destruct (reads_only req) eqn:Hread.
  { by rewrite reads_keep_docs. }
  destruct req as [| |id|body|id body|id body|id|s|k|]; try done; cbn [app].
  - rewrite postTask_store.
    destruct (Task_save_docs R E body st) as [->|(d & -> & _ & Hfresh)]; [done|].
    rewrite fmap_app. apply NoDup_app. split_and!; [done| |apply NoDup_singleton].
    intros oid (d' & -> & Hd')%list_elem_of_fmap Hin.
    apply list_elem_of_singleton in Hin.
    by apply (proj1 (Forall_forall _ _) Hfresh d' Hd').
  - rewrite putTask_store. apply Hupd.
  - rewrite patchStatus_store. destruct (includes_status _); [apply Hupd|done].
  - rewrite deleteTask_store.
    destruct (Task_findByIdAndDelete_docs E id st) as [->|(i & d & oid & _ & _ & ->)];
      [done|].
    rewrite list_fmap_delete. eapply sublist_NoDup; [done|apply sublist_delete].
  - rewrite deleteCompleted_store.
    destruct (Task_deleteMany_completed_docs E st) as [->| ->]; [done|].
    eapply sublist_NoDup; [done|]. apply fmap_sublist, sublist_filter.
Qed.

Lemma X9_witness : ids_unique (app sampleRuntime (env 3000 idC) (Create bodyExtra) storeAB).2.
Proof.
  apply X9_ids_stay_unique. unfold ids_unique.
  apply (bool_decide_unpack _). vm_compute; reflexivity.
Defined.

(** ** Delete by id *)

Lemma deleteTask_absent R E id st :
  fault E = None → is_hex24 id = true →
  Forall (λ d, d !! "_id" ≠ Some (VOid (lower id))) (docs st) →
  deleteTask R E id st
    = (status_json 404 (PMessage "Task not found"), called CallFindByIdAndDelete st).
Proof.
  intros HE Hid Hnone. unfold deleteTask, Task_findByIdAndDelete, reply.
  rewrite (proj2 (objectIdOfString_Some id _)) by done. rewrite HE. cbn [called docs].
  by rewrite (proj2 (list_find_None _ _) Hnone).
Qed.

(** X10: with the server reachable and a well-formed identifier,
    delete-by-id answers 200 "Task deleted successfully" and removes the
    first document with that [_id] and no other, the rest keeping their
    order; when the collection has no such document it answers 404 "Task
    not found" and removes nothing. *)
Theorem X10_delete_by_id (R : Runtime) (E : Env) (id : string) (st : Store) :
  fault E = None →
  is_hex24 id = true →
  (∀ i d, list_find (has_id (VOid (lower id))) (docs st) = Some (i, d) →
      ∃ st',
        deleteTask R E id st = (json (PMessage "Task deleted successfully"), st')
        ∧ docs st' = delete i (docs st)
        ∧ docs st = take i (docs st') ++ d :: drop i (docs st')
        ∧ length (docs st) = S (length (docs st')))
  ∧ (Forall (λ d, d !! "_id" ≠ Some (VOid (lower id))) (docs st) →
      deleteTask R E id st
        = (status_json 404 (PMessage "Task not found"), called CallFindByIdAndDelete st)).
Proof.
  intros HE Hid.
  assert (objectIdOfString id = Some (VOid (lower id))) as Hoid
    by by apply objectIdOfString_Some.
  split.
  - intros i d Hfind.
    exists (with_docs (delete i (docs st)) (called CallFindByIdAndDelete st)).
    pose proof Hfind as (Hi & _ & _)%list_find_Some.
    assert (i < length (docs st))%nat as Hlt by by eapply lookup_lt_Some.
    split_and!.
    + unfold deleteTask, Task_findByIdAndDelete, reply.
      rewrite Hoid, HE. cbn [called docs]. by rewrite Hfind.
    + done.
    + cbn. rewrite delete_take_drop.
      rewrite take_app_length', drop_app_length' by (rewrite length_take; lia).
      symmetry. by apply take_drop_middle.
    + cbn. rewrite length_delete by by eexists. lia.
  - by apply deleteTask_absent.
Qed.

Lemma X10_witness :
  ∃ st',
    deleteTask sampleRuntime (env 3000 idC) idA storeAB
      = (json (PMessage "Task deleted successfully"), st')
    ∧ docs st' = delete 0%nat (docs storeAB)
    ∧ docs storeAB = take 0%nat (docs st') ++ docA :: drop 0%nat (docs st')
    ∧ length (docs storeAB) = S (length (docs st')).
Proof.
  destruct (X10_delete_by_id sampleRuntime (env 3000 idC) idA storeAB) as [Hfound _].
  - reflexivity.
  - vm_compute; reflexivity.
  - apply (Hfound 0%nat docA). vm_compute; reflexivity.
Defined.

(** X11: in a collection with unique identifiers, a task that delete-by-id
    answered with 200 is gone: get-by-id for the same identifier then
    answers 404, and a second delete-by-id answers 404 as well. *)
Theorem X11_deleted_is_gone (R : Runtime) (E E' : Env) (id : string) (st : Store) :
  ids_unique st →
  code (deleteTask R E id st).1 = 200 →
  fault E' = None →
  let st' := (deleteTask R E id st).2 in
  getTask R E' id st'
    = (status_json 404 (PMessage "Task not found"), called CallFindById st')
  ∧ deleteTask R E' id st'
    = (status_json 404 (PMessage "Task not found"), called CallFindByIdAndDelete st').
Proof.
  intros Huniq Hcode HE' st'.
  assert (is_hex24 id = true
          ∧ Forall (λ d, d !! "_id" ≠ Some (VOid (lower id))) (docs st')) as [Hid Hgone].
  { subst st'. revert Hcode. unfold deleteTask, Task_findByIdAndDelete, reply.
    destruct (objectIdOfString id) as [oid|] eqn:Hoid; [|done].
    apply objectIdOfString_Some in Hoid as [Hid ->].
    destruct (fault E) as [[msg|msg]|]; [done| |]; cbn [called docs];
      (destruct (list_find _ _) as [[i d]|] eqn:Hfind; [|done]); [done|].
    intros _. split; [done|]. cbn.
    apply list_find_Some in Hfind as (Hi & Hd & _). unfold has_id in Hd.
    rewrite <-Hd.
    by apply (NoDup_fmap_delete_others (λ d : Doc, d !! "_id")). }
  split.
  - by apply getTask_absent.
  - by apply deleteTask_absent.
Qed.

Lemma X11_witness :
  getTask sampleRuntime (env 4000 idC) idA
      (deleteTask sampleRuntime (env 3000 idC) idA storeAB).2
    = (status_json 404 (PMessage "Task not found"),
       called CallFindById (deleteTask sampleRuntime (env 3000 idC) idA storeAB).2)
  ∧ deleteTask sampleRuntime (env 4000 idC) idA
      (deleteTask sampleRuntime (env 3000 idC) idA storeAB).2
    = (status_json 404 (PMessage "Task not found"),
       called CallFindByIdAndDelete (deleteTask sampleRuntime (env 3000 idC) idA storeAB).2).
Proof.
  apply (X11_deleted_is_gone sampleRuntime (env 3000 idC) (env 4000 idC) idA storeAB).
  - unfold ids_unique. apply (bool_decide_unpack _). vm_compute; reflexivity.
  - vm_compute; reflexivity.
  - reflexivity.
Defined.

(** ** Updates and the size of the collection *)

(** X12: a full update and a status update never add or remove a
    document, whatever their answer, and change at most one: all
    documents but one position are as before. *)
Theorem X12_updates_keep_the_others (R : Runtime) (E : Env) (id : string)
    (body : Body) (st : Store) :
  (length (docs (putTask R E id body st).2) = length (docs st)
   ∧ ∃ i, ∀ j, j ≠ i → docs (putTask R E id body st).2 !! j = docs st !! j)
  ∧ (length (docs (patchStatus R E id body st).2) = length (docs st)
     ∧ ∃ i, ∀ j, j ≠ i → docs (patchStatus R E id body st).2 !! j = docs st !! j).
Proof.
  assert (∀ id body,
            length (docs (Task_findByIdAndUpdate R E id body st).2) = length (docs st)
            ∧ ∃ i, ∀ j, j ≠ i →
                docs (Task_findByIdAndUpdate R E id body st).2 !! j = docs st !! j) as Hupd.
  { intros id' body'.
    destruct (Task_findByIdAndUpdate_docs R E id' body' st)
      as [->|(i & d & u & d' & _ & _ & _ & _ & ->)].
    - split; [done|]. by exists 0%nat.
    - split; [by rewrite length_insert|].
      exists i. intros j Hj. by apply list_lookup_insert_ne. }
  split.
  - rewrite putTask_store. apply Hupd.
  - rewrite patchStatus_store. destruct (includes_status _); [apply Hupd|].
    split; [done|]. by exists 0%nat.
Qed.

(** ** Delete all completed, and the status filter *)

Lemma filter_completed_gone (l : list Doc) :
  filter (has_status "Completed") (filter (λ d, ¬ has_status "Completed" d) l) = [].
Proof.
  induction l as [|d l IH]; [done|].
  rewrite (filter_cons (λ d, ¬ has_status "Completed" d)).
  case_decide; [|done]. by rewrite filter_cons_False.
Qed.

Lemma filter_not_completed_idemp (l : list Doc) :
  filter (λ d, ¬ has_status "Completed" d) (filter (λ d, ¬ has_status "Completed" d) l)
    = filter (λ d, ¬ has_status "Completed" d) l.
Proof.
  induction l as [|d l IH]; [done|].
  rewrite (filter_cons _ d l).
  case_decide; [|done]. rewrite filter_cons_True by done. by rewrite IH.
Qed.

(** X13: with the server reachable, after delete-all-completed the status
    filter finds no completed task, and a second delete-all-completed
    reports the count 0 and removes nothing. *)
Theorem X13_delete_completed_twice (R : Runtime) (E1 E2 : Env) (st : Store) :
  fault E1 = None →
  fault E2 = None →
  let st1 := (deleteCompleted R E1 st).2 in
  getByStatus R E2 "Completed" st1 = (json (PTasks []), called CallFind st1)
  ∧ deleteCompleted R E2 st1
    = (json (PMessage (deleted_message 0)), called CallDeleteMany st1).
Proof.
  intros HE1 HE2 st1.
  assert (docs st1 = filter (λ d, ¬ has_status "Completed" d) (docs st)) as Hst1.
  { subst st1. unfold deleteCompleted, Task_deleteMany_completed, reply. by rewrite HE1. }
  split.
  - unfold getByStatus, Task_find_status. rewrite HE2. cbn [called docs].
    by rewrite Hst1, filter_completed_gone.
  - unfold deleteCompleted, Task_deleteMany_completed, reply. rewrite HE2. cbn [called docs].
    rewrite Hst1, filter_completed_gone, filter_not_completed_idemp.
    rewrite <-Hst1. by destruct st1.
Qed.

Lemma X13_witness :
  getByStatus sampleRuntime (env 4000 idC) "Completed"
      (deleteCompleted sampleRuntime (env 3000 idC) storeAB).2
    = (json (PTasks []),
       called CallFind (deleteCompleted sampleRuntime (env 3000 idC) storeAB).2)
  ∧ deleteCompleted sampleRuntime (env 4000 idC)
      (deleteCompleted sampleRuntime (env 3000 idC) storeAB).2
    = (json (PMessage (deleted_message 0)),
       called CallDeleteMany (deleteCompleted sampleRuntime (env 3000 idC) storeAB).2).
Proof.
  apply (X13_delete_completed_twice sampleRuntime (env 3000 idC) (env 4000 idC) storeAB);
    reflexivity.
Defined.

Lemma filter_not_completed_valid (l : list Doc) :
  Forall (λ d, valid_task d = true) l →
  filter (λ d, ¬ has_status "Completed" d) l = filter (has_status "Pending") l.
Proof.
  induction 1 as [|d l Hd _ IH]; [done|].
  rewrite !filter_cons, IH.
  apply valid_task_status in Hd as [Hd|Hd].
  - rewrite decide_True; [by rewrite decide_True|]. unfold has_status in *. congruence.
  - rewrite decide_False by naive_solver.
    rewrite decide_False; [done|]. unfold has_status in *. congruence.
Qed.

(** X14: over a collection that satisfies the schema invariant, with the
    server reachable, the two status filters split the collection: every
    task is returned by exactly one of "Pending" and "Completed", each in
    the order of the collection. *)
Theorem X14_status_filters_split (R : Runtime) (E : Env) (st : Store) :
  fault E = None →
  store_valid st →
  ∃ pending completed,
    getByStatus R E "Pending" st = (json (PTasks pending), called CallFind st)
    ∧ getByStatus R E "Completed" st = (json (PTasks completed), called CallFind st)
    ∧ completed ++ pending ≡ₚ docs st
    ∧ (∀ d, d ∈ pending → d ∉ completed)
    ∧ pending `sublist_of` docs st
    ∧ completed `sublist_of` docs st.
Proof.
  intros HE Hvalid.
  exists (filter (has_status "Pending") (docs st)),
    (filter (has_status "Completed") (docs st)).
  split_and!.
  - unfold getByStatus, Task_find_status. by rewrite HE.
  - unfold getByStatus, Task_find_status. by rewrite HE.
  - rewrite <-(filter_not_completed_valid _ Hvalid). apply filter_app_complement.
  - intros d [Hp _]%list_elem_of_filter [Hc _]%list_elem_of_filter.
    unfold has_status in *. congruence.
  - apply sublist_filter.
  - apply sublist_filter.
Qed.

Lemma X14_witness :
  ∃ pending completed,
    getByStatus sampleRuntime (env 3000 idC) "Pending" storeAB
      = (json (PTasks pending), called CallFind storeAB)
    ∧ getByStatus sampleRuntime (env 3000 idC) "Completed" storeAB
      = (json (PTasks completed), called CallFind storeAB)
    ∧ completed ++ pending ≡ₚ docs storeAB
    ∧ (∀ d, d ∈ pending → d ∉ completed)
    ∧ pending `sublist_of` docs storeAB
    ∧ completed `sublist_of` docs storeAB.
Proof.
  apply (X14_status_filters_split sampleRuntime (env 3000 idC) storeAB).
  - reflexivity.
  - unfold store_valid. apply (bool_decide_unpack _). vm_compute; reflexivity.
Defined.

(** ** The schema invariant along a sequence of requests *)

(** X15: starting from a collection that satisfies the schema invariant,
    every sequence of requests without a full update, and without a create
    that sets [status] to [null], ends in a collection that satisfies
    it. *)
Theorem X15_invariant_along_requests (R : Runtime) (reqs : list (Env * Request))
    (st : Store) :
  Forall (λ p, keeps_invariant p.2) reqs →
  store_valid st →
  store_valid (run R reqs st).
Proof.
  intros Hreqs. revert st. unfold run.
  induction Hreqs as [|[E req] reqs Hreq _ IH]; intros st Hst; [done|].
  cbn [foldl]. apply IH. by apply store_valid_preserved.
Qed.

Lemma X15_witness : store_valid storeAB.
Proof.
  apply (X15_invariant_along_requests sampleRuntime
           [(env 1000 idA, Create bodyA); (env 2000 idB, Create bodyB)] emptyStore).
  - constructor; [vm_compute; discriminate|].
    constructor; [vm_compute; discriminate|]. constructor.
  - constructor.
Defined.

(** ** Start-up *)

(** X16: [startServer] first attempts the connection with the
    [MONGODB_URI] of the environment (none when it is unset); it calls
    [listen] only after the connection resolved, and then on the [PORT] of
    the environment, or on 3000 when that is unset or empty; when the
    connection is rejected it logs one error ending with the error's
    message and does nothing more. *)
Theorem X16_listen_only_when_connected (R : Runtime) (penv : gmap string string)
    (connect : option string → Outcome ()) (listen : PortValue → Outcome ()) :
  let trace := startServer R penv connect listen in
  head trace = Some (Connect (penv !! "MONGODB_URI"))
  ∧ (∀ p, Listen p ∈ trace ↔
          connect (penv !! "MONGODB_URI") = Resolved () ∧ p = PORT penv)
  ∧ (∀ err, connect (penv !! "MONGODB_URI") = Rejected err →
       ∃ args, trace = [Connect (penv !! "MONGODB_URI"); ConsoleError args]
               ∧ last args = Some (message R err))
  ∧ (penv !! "PORT" = None ∨ penv !! "PORT" = Some "" → PORT penv = PortNumber 3000)
  ∧ (∀ s, penv !! "PORT" = Some s → s ≠ "" → PORT penv = PortOfEnv s).
Proof.
  cbn zeta. unfold startServer. split_and!.
  - done.
  - intros p. destruct (connect (penv !! "MONGODB_URI")) as [[]|err].
    + destruct (listen (PORT penv)); split.
      * intros Hin. repeat (apply elem_of_cons in Hin as [Heq|Hin]; [by simplify_eq|]).
        by apply elem_of_nil in Hin.
      * intros [_ ->]. do 2 right. by left.
      * intros Hin. repeat (apply elem_of_cons in Hin as [Heq|Hin]; [by simplify_eq|]).
        by apply elem_of_nil in Hin.
      * intros [_ ->]. do 2 right. by left.
    + split; [|by intros [? _]].
      intros Hin. repeat (apply elem_of_cons in Hin as [Heq|Hin]; [by simplify_eq|]).
      by apply elem_of_nil in Hin.
  - intros err ->. by eexists.
  - unfold PORT. by intros [-> | ->].
  - intros s Hs Hne. unfold PORT. rewrite Hs.
    destruct (String.eqb_spec s ""); done.
Qed.

(** Without a connection string the sample connection is refused and the
    server never listens. *)
Lemma X16_witness :
  Listen (PortNumber 3000) ∉ startServer sampleRuntime ∅ sampleConnect sampleListen.
Proof.
  intros Hin.
  by apply (X16_listen_only_when_connected sampleRuntime ∅ sampleConnect sampleListen)
    in Hin as [? _].
Defined.

(** ** Routes *)

Lemma match_route_length pattern path :
  is_Some (match_route pattern path) → length pattern = length path.
Proof.
  revert path. induction pattern as [|[s|name] pattern IH]; intros [|x path]; cbn;
    try by intros [? ?].
  - destruct (String.eqb (lower s) (lower x)); [|by intros [? ?]].
    intros H. f_equal. by apply IH.
  - destruct (String.eqb x ""); [by intros [? ?]|].
    intros H. f_equal. apply IH. by apply fmap_is_Some in H.
Qed.

Lemma status_or_search path :
  is_Some (match_route (tasksPath ++ [Fixed "status"; Named "status"]) path) →
  is_Some (match_route (tasksPath ++ [Fixed "search"; Named "keyword"]) path) →
  False.
Proof.
  intros H1 H2. pose proof (match_route_length _ _ H1) as Hlen.
  destruct path as [|a [|b [|c [|x [|y [|z path]]]]]]; try done.
  unfold tasksPath in H1, H2. cbn -[String.eqb lower] in H1, H2.
  destruct (String.eqb (lower "api") (lower a)); [|destruct (is_Some_None H1)].
  destruct (String.eqb (lower "v1") (lower b)); [|destruct (is_Some_None H1)].
  destruct (String.eqb (lower "tasks") (lower c)); [|destruct (is_Some_None H1)].
  destruct (String.eqb_spec (lower "status") (lower x)) as [Hs|]; [|destruct (is_Some_None H1)].
  destruct (String.eqb_spec (lower "search") (lower x)) as [Hk|]; [|destruct (is_Some_None H2)].
  rewrite <-Hs in Hk. by vm_compute in Hk.
Qed.

Lemma match_tasks_prefix pattern path :
  match_route (tasksPath ++ pattern) ("api" :: "v1" :: "tasks" :: path)
    = match_route pattern path.
Proof. reflexivity. Qed.

(** No request is matched by two routes. *)
Lemma routes_do_not_overlap (m : Method) (path : list string)
    (i j : nat) (r1 r2 : Route) :
  routes !! i = Some r1 →
  routes !! j = Some r2 →
  route_matches m path r1 →
  route_matches m path r2 →
  i = j.
Proof.
  intros Hi Hj [Hm1 Hp1] [Hm2 Hp2].
  pose proof (match_route_length _ _ Hp1) as Hl1.
  pose proof (match_route_length _ _ Hp2) as Hl2.
  destruct i as [|[|[|[|[|[|[|[|[|[|i]]]]]]]]]]; cbn in Hi; simplify_eq;
    destruct j as [|[|[|[|[|[|[|[|[|[|j]]]]]]]]]]; cbn in Hj; simplify_eq;
    cbn -[match_route] in *; simplify_eq; try done; try congruence;
    exfalso; by eapply status_or_search.
Qed.

(** X17: the order in which [server.js] registers its routes decides
    nothing: a request is served by whichever registered route has its
    method and matches its path, since no two routes match the same
    request. *)
Theorem X17_any_matching_route_serves (m : Method) (path : list string)
    (body : Body) (i : nat) (r : Route) (params : gmap string string) :
  routes !! i = Some r →
  route_method r = m →
  match_route (route_path r) path = Some params →
  dispatch m path body = route_request r params body.
Proof.
  intros Hi Hm Hp.
  assert (route_matches m path r) as Hr by (split; [done|by eexists]).
  unfold dispatch.
  destruct (list_find (route_matches m path) routes) as [[j r']|] eqn:Hfind.
  - apply list_find_Some in Hfind as (Hj & Hr' & _).
    assert (i = j) as <- by by eapply routes_do_not_overlap.
    simplify_eq. cbn. by rewrite Hp.
  - apply list_find_None in Hfind.
    by apply (proj1 (Forall_forall _ _) Hfind r (list_elem_of_lookup_2 _ _ _ Hi)) in Hr.
Qed.

Lemma X17_witness :
  dispatch GET ["API"; "v1"; "Tasks"; "Status"; "Pending"] ∅
    = Some (FilterByStatus "Pending").
Proof.
  rewrite (X17_any_matching_route_serves GET ["API"; "v1"; "Tasks"; "Status"; "Pending"] ∅ 7
             {| route_method := GET;
                route_path := tasksPath ++ [Fixed "status"; Named "status"];
                route_request := λ params _, FilterByStatus <$> params !! "status" |}
             {["status" := "Pending"]}); vm_compute; reflexivity.
Defined.

(** X18: a GET of [/api/v1/tasks/] followed by one segment is always
    served by the get-by-id handler, the segments [status] and [search]
    included; when the segment is not 24 hexadecimal digits the answer is
    500 with the cast error's message. *)
Theorem X18_single_segment_is_an_id (R : Runtime) (E : Env) (x : string)
    (body : Body) (st : Store) :
  x ≠ "" →
  dispatch GET ["api"; "v1"; "tasks"; x] body = Some (GetById x)
  ∧ (is_hex24 x = false →
     serve R E GET ["api"; "v1"; "tasks"; x] body st
       = Some (status_json 500 (PMessage (message R (CastError TObjectId (JStr x) "_id"))),
               called CallFindById st)).
Proof.
  intros Hx.
  assert (String.eqb x "" = false) as Hx' by by apply String.eqb_neq.
  assert (dispatch GET ["api"; "v1"; "tasks"; x] body = Some (GetById x)) as Hd.
  { assert (match_route (tasksPath ++ [Named "id"]) ["api"; "v1"; "tasks"; x]
            = Some {["id" := x]}) as Hmatch.
    { rewrite match_tasks_prefix. cbn [match_route]. by rewrite Hx'. }
    unfold dispatch.
    assert (list_find (route_matches GET ["api"; "v1"; "tasks"; x]) routes
            = Some (2%nat, {| route_method := GET; route_path := tasksPath ++ [Named "id"];
                              route_request := λ params _, GetById <$> params !! "id" |}))
      as ->.
    { apply list_find_Some. split_and!.
      - done.
      - split; [done|]. cbn [route_path]. by rewrite Hmatch.
      - intros j r Hj Hlt [_ Hr%match_route_length].
        destruct j as [|[|j]]; [| |lia]; cbn in Hj; by simplify_eq. }
    cbn [mbind option_bind route_path route_request]. rewrite Hmatch. cbn.
    by rewrite lookup_singleton_eq. }
  split; [done|]. intros Hhex. unfold serve. rewrite Hd. cbn [fmap option_fmap option_map app].
  f_equal. unfold getTask, Task_findById, objectIdOfString. by rewrite Hhex.
Qed.

Lemma X18_witness :
  dispatch GET ["api"; "v1"; "tasks"; "status"] ∅ = Some (GetById "status")
  ∧ serve sampleRuntime (env 3000 idC) GET ["api"; "v1"; "tasks"; "status"] ∅ storeAB
    = Some (status_json 500 (PMessage "Cast failed"), called CallFindById storeAB).
Proof.
  destruct (X18_single_segment_is_an_id sampleRuntime (env 3000 idC) "status" ∅ storeAB)
    as [Hd Hs]; [done|].
  split; [done|]. apply Hs. reflexivity.
Defined.

(** ** Updating a task that is not there *)

(** X19: with the server reachable and a well-formed identifier that no
    document carries, a status update with a valid status, and a full
    update whose body casts, are answered with 404 "Task not found";
    nothing is created in its place. *)
Theorem X19_update_of_absent_task (R : Runtime) (E : Env) (id : string)
    (body : Body) (st : Store) :
  fault E = None →
  is_hex24 id = true →
  Forall (λ d, d !! "_id" ≠ Some (VOid (lower id))) (docs st) →
  (includes_status (body !! "status") = true →
     patchStatus R E id body st
       = (status_json 404 (PMessage "Task not found"), called CallFindByIdAndUpdate st))
  ∧ (∀ set, castUpdate R E body = inr set →
     putTask R E id body st
       = (status_json 404 (PMessage "Task not found"), called CallFindByIdAndUpdate st)).
Proof.
  intros HE Hid Hnone.
  assert (objectIdOfString id = Some (VOid (lower id))) as Hoid
    by by apply objectIdOfString_Some.
  assert (list_find (has_id (VOid (lower id))) (docs st) = None) as Hfind
    by by apply list_find_None.
  split.
  - intros Hinc. unfold patchStatus. rewrite Hinc. cbn [negb].
    destruct (body !! "status") as [[| | |s| |]|]; try done.
    unfold Task_findByIdAndUpdate, reply.
    rewrite Hoid, castUpdate_status_only, HE. cbn [called docs]. by rewrite Hfind.
  - intros set Hset. unfold putTask, Task_findByIdAndUpdate, reply.
    rewrite Hoid, Hset, HE. cbn [called docs]. by rewrite Hfind.
Qed.

Lemma X19_witness :
  patchStatus sampleRuntime (env 3000 idA) idC bodyB storeAB
    = (status_json 404 (PMessage "Task not found"), called CallFindByIdAndUpdate storeAB).
Proof.
  destruct (X19_update_of_absent_task sampleRuntime (env 3000 idA) idC bodyB storeAB)
    as [Hpatch _].
  - reflexivity.
  - vm_compute; reflexivity.
  - apply (bool_decide_unpack _). vm_compute; reflexivity.
  - apply Hpatch. vm_compute; reflexivity.
Defined.

